(** * WebAuthn device model of authelia: [internal/model/webauthn.go]

    A shallow embedding of the Go model of a registered WebAuthn device,
    of its conversions to the ceremony library's credential type and to
    the portable (JSON / YAML) document form, and of the SQL migration
    that consolidates the legacy tables into [webauthn_devices].

    Conventions.
    - A Go [string] is a [string]; a [[]byte] is a [list byte].
    - A Go [[]string] whose nil-ness can be observed is a [slice string]:
      [None] is the nil slice, [Some l] a non-nil slice with elements [l].
    - A pointer used as an optional value ([*string], [*time.Time]) is an
      [option].
    - A Go call returning [(v, err)] is a pair [(v, option error)].
    - Functions of external packages ([encoding/base64], [encoding/hex],
      [github.com/google/uuid]) are fields of the class [Libraries]: every
      general theorem holds for all implementations of them. A reference
      instance is defined below and used to run the model. *)

From stdpp Require Import base list strings pretty gmap.
From Stdlib Require Import ZArith Strings.Byte Strings.Ascii.

Local Open Scope Z_scope.

(** ** Go values *)

Definition error := string.

Definition slice (A : Type) := option (list A).

Definition elems {A : Type} (s : slice A) : list A :=
  match s with
  | None => []
  | Some l => l
  end.

(** [time.Time]: the code only stores and copies instants. *)
Definition Time := Z.

(** ** [strings.Split] and [strings.Join]

    [Split s sep] for a separator of one byte, which is how the model
    calls it ([","]); an empty [s] gives one empty segment. *)

Fixpoint Split (s : string) (sep : ascii) : list string :=
  match s with
  | EmptyString => [EmptyString]
  | String c rest =>
      if decide (c = sep) then EmptyString :: Split rest sep
      else match Split rest sep with
           | [] => [String c EmptyString]
           | seg :: segs => String c seg :: segs
           end
  end.

Fixpoint Join (elems : list string) (sep : string) : string :=
  match elems with
  | [] => ""
  | a :: rest =>
      match rest with
      | [] => a
      | _ :: _ => a +:+ sep +:+ Join rest sep
      end
  end.

Definition comma : ascii := ","%char.

(** ** [uuid.UUID], [uuid.NullUUID], [sql.NullTime] *)

(** [type UUID [16]byte] *)
Definition UUID := list byte.

Definition uuid_Nil : UUID := replicate 16 x00.

Definition u8 (b : list byte) (i : nat) : Z :=
  Z.of_N (Byte.to_N (nth i b x00)).

(** [binary.BigEndian.Uint32]:
    [uint32(b[3]) | uint32(b[2])<<8 | uint32(b[1])<<16 | uint32(b[0])<<24] *)
Definition BigEndian_Uint32 (b : list byte) : Z :=
  Z.lor (Z.lor (Z.lor (u8 b 3) (Z.shiftl (u8 b 2) 8)) (Z.shiftl (u8 b 1) 16))
        (Z.shiftl (u8 b 0) 24).

(** [func (uuid UUID) ID() uint32 { return binary.BigEndian.Uint32(uuid[0:4]) }] *)
Definition UUID_ID (u : UUID) : Z := BigEndian_Uint32 (take 4 u).

Module NullUUID.
Record t := { UUID : UUID; Valid : bool }.
Definition zero : t := {| UUID := uuid_Nil; Valid := false |}.
End NullUUID.

Module NullTime.
Record t := { Time : Time; Valid : bool }.
Definition zero : t := {| Time := 0; Valid := false |}.
End NullTime.

(** ** The external packages *)

Class Libraries := {
  (** [base64.StdEncoding.EncodeToString] *)
  base64_EncodeToString : list byte -> string;
  (** [base64.StdEncoding.DecodeString] *)
  base64_DecodeString : string -> list byte * option error;
  (** [hex.EncodeToString] *)
  hex_EncodeToString : list byte -> string;
  (** [uuid.Parse] *)
  uuid_Parse : string -> UUID * option error;
  (** [func (uuid UUID) String() string] *)
  UUID_String : UUID -> string;
  (** [func (nu NullUUID) MarshalBinary() ([]byte, error)] *)
  NullUUID_MarshalBinary : NullUUID.t -> list byte * option error
}.

(** ** [model.Base64] *)

Module Base64.
(** Modelled from the spec: the type [Base64] of this package
    (the Binary Identifier Codec) is not in the file; it wraps the raw
    bytes of an identifier, and its text form is base64
    ("KID and public key go through the Binary Identifier Codec
    (base64 specifically ...)"). *)
Record t := { data : list byte }.
Definition zero : t := {| data := [] |}.
End Base64.

(** Modelled from the spec: [NewBase64] wraps raw bytes. *)
Definition NewBase64 (data : list byte) : Base64.t := {| Base64.data := data |}.

(** Modelled from the spec: [Bytes] gives the raw bytes back. *)
Definition Base64_Bytes (b : Base64.t) : list byte := Base64.data b.

(** Modelled from the spec: [String] is the base64 text of the bytes. *)
Definition Base64_String `{Libraries} (b : Base64.t) : string :=
  base64_EncodeToString (Base64.data b).

(** ** The ceremony library's types ([webauthn.Credential], [webauthn.Config]) *)

Module CredentialFlags.
Record t := {
  UserPresent : bool;
  UserVerified : bool;
  BackupEligible : bool;
  BackupState : bool
}.
Definition zero : t :=
  {| UserPresent := false; UserVerified := false;
     BackupEligible := false; BackupState := false |}.
End CredentialFlags.

Module Authenticator.
Record t := {
  AAGUID : list byte;
  SignCount : Z;
  CloneWarning : bool;
  Attachment : string
}.
Definition zero : t :=
  {| AAGUID := []; SignCount := 0; CloneWarning := false; Attachment := "" |}.
End Authenticator.

Module Credential.
Record t := {
  ID : list byte;
  PublicKey : list byte;
  AttestationType : string;
  Transport : slice string;
  Flags : CredentialFlags.t;
  Authenticator : Authenticator.t
}.
(** The zero value [webauthn.Credential{}]. *)
Definition zero : t :=
  {| ID := []; PublicKey := []; AttestationType := ""; Transport := None;
     Flags := CredentialFlags.zero; Authenticator := Authenticator.zero |}.
Definition set_Transport (v : slice string) (c : t) : t :=
  {| ID := ID c; PublicKey := PublicKey c; AttestationType := AttestationType c;
     Transport := v; Flags := Flags c; Authenticator := Authenticator c |}.
End Credential.

Module Config.
(** The two fields of [webauthn.Config] that the model reads. *)
Record t := { RPID : string; RPOrigins : list string }.
End Config.

(** ** [WebAuthnDevice] *)

Definition attestationTypeFIDOU2F : string := "fido-u2f".

Module WebAuthnDevice.
Record t := {
  ID : Z;
  CreatedAt : Time;
  LastUsedAt : NullTime.t;
  RPID : string;
  Username : string;
  Description : string;
  KID : Base64.t;
  AAGUID : NullUUID.t;
  AttestationType : string;
  Attachment : string;
  Transport : string;
  SignCount : Z;
  CloneWarning : bool;
  Discoverable : bool;
  Present : bool;
  Verified : bool;
  BackupEligible : bool;
  BackupState : bool;
  PublicKey : list byte
}.

(** The zero value [WebAuthnDevice{}]. *)
Definition zero : t :=
  {| ID := 0; CreatedAt := 0; LastUsedAt := NullTime.zero; RPID := "";
     Username := ""; Description := ""; KID := Base64.zero;
     AAGUID := NullUUID.zero; AttestationType := ""; Attachment := "";
     Transport := ""; SignCount := 0; CloneWarning := false;
     Discoverable := false; Present := false; Verified := false;
     BackupEligible := false; BackupState := false; PublicKey := [] |}.

Definition set_LastUsedAt (v : NullTime.t) (d : t) : t :=
  {| ID := ID d; CreatedAt := CreatedAt d; LastUsedAt := v; RPID := RPID d;
     Username := Username d; Description := Description d; KID := KID d;
     AAGUID := AAGUID d; AttestationType := AttestationType d;
     Attachment := Attachment d; Transport := Transport d;
     SignCount := SignCount d; CloneWarning := CloneWarning d;
     Discoverable := Discoverable d; Present := Present d;
     Verified := Verified d; BackupEligible := BackupEligible d;
     BackupState := BackupState d; PublicKey := PublicKey d |}.

Definition set_RPID (v : string) (d : t) : t :=
  {| ID := ID d; CreatedAt := CreatedAt d; LastUsedAt := LastUsedAt d; RPID := v;
     Username := Username d; Description := Description d; KID := KID d;
     AAGUID := AAGUID d; AttestationType := AttestationType d;
     Attachment := Attachment d; Transport := Transport d;
     SignCount := SignCount d; CloneWarning := CloneWarning d;
     Discoverable := Discoverable d; Present := Present d;
     Verified := Verified d; BackupEligible := BackupEligible d;
     BackupState := BackupState d; PublicKey := PublicKey d |}.

Definition set_KID (v : Base64.t) (d : t) : t :=
  {| ID := ID d; CreatedAt := CreatedAt d; LastUsedAt := LastUsedAt d;
     RPID := RPID d; Username := Username d; Description := Description d;
     KID := v; AAGUID := AAGUID d; AttestationType := AttestationType d;
     Attachment := Attachment d; Transport := Transport d;
     SignCount := SignCount d; CloneWarning := CloneWarning d;
     Discoverable := Discoverable d; Present := Present d;
     Verified := Verified d; BackupEligible := BackupEligible d;
     BackupState := BackupState d; PublicKey := PublicKey d |}.

Definition set_AAGUID (v : NullUUID.t) (d : t) : t :=
  {| ID := ID d; CreatedAt := CreatedAt d; LastUsedAt := LastUsedAt d;
     RPID := RPID d; Username := Username d; Description := Description d;
     KID := KID d; AAGUID := v; AttestationType := AttestationType d;
     Attachment := Attachment d; Transport := Transport d;
     SignCount := SignCount d; CloneWarning := CloneWarning d;
     Discoverable := Discoverable d; Present := Present d;
     Verified := Verified d; BackupEligible := BackupEligible d;
     BackupState := BackupState d; PublicKey := PublicKey d |}.

Definition set_SignCount (v : Z) (d : t) : t :=
  {| ID := ID d; CreatedAt := CreatedAt d; LastUsedAt := LastUsedAt d;
     RPID := RPID d; Username := Username d; Description := Description d;
     KID := KID d; AAGUID := AAGUID d; AttestationType := AttestationType d;
     Attachment := Attachment d; Transport := Transport d;
     SignCount := v; CloneWarning := CloneWarning d;
     Discoverable := Discoverable d; Present := Present d;
     Verified := Verified d; BackupEligible := BackupEligible d;
     BackupState := BackupState d; PublicKey := PublicKey d |}.

Definition set_PublicKey (v : list byte) (d : t) : t :=
  {| ID := ID d; CreatedAt := CreatedAt d; LastUsedAt := LastUsedAt d;
     RPID := RPID d; Username := Username d; Description := Description d;
     KID := KID d; AAGUID := AAGUID d; AttestationType := AttestationType d;
     Attachment := Attachment d; Transport := Transport d;
     SignCount := SignCount d; CloneWarning := CloneWarning d;
     Discoverable := Discoverable d; Present := Present d;
     Verified := Verified d; BackupEligible := BackupEligible d;
     BackupState := BackupState d; PublicKey := v |}.
End WebAuthnDevice.

(** ** [WebAuthnUser] *)

Module WebAuthnUser.
Record t := {
  ID : Z;
  RPID : string;
  Username : string;
  UserID : string;
  DisplayName : string;
  Devices : list WebAuthnDevice.t
}.
End WebAuthnUser.

(** ** [WebAuthnDeviceData] *)

Module WebAuthnDeviceData.
Record t := {
  ID : Z;
  CreatedAt : Time;
  LastUsedAt : option Time;
  RPID : string;
  Username : string;
  Description : string;
  KID : string;
  AAGUID : option string;
  AttestationType : string;
  Attachment : string;
  Transports : slice string;
  SignCount : Z;
  CloneWarning : bool;
  Discoverable : bool;
  Present : bool;
  Verified : bool;
  BackupEligible : bool;
  BackupState : bool;
  PublicKey : string
}.

Definition set_Transports (v : slice string) (o : t) : t :=
  {| ID := ID o; CreatedAt := CreatedAt o; LastUsedAt := LastUsedAt o;
     RPID := RPID o; Username := Username o; Description := Description o;
     KID := KID o; AAGUID := AAGUID o; AttestationType := AttestationType o;
     Attachment := Attachment o; Transports := v; SignCount := SignCount o;
     CloneWarning := CloneWarning o; Discoverable := Discoverable o;
     Present := Present o; Verified := Verified o;
     BackupEligible := BackupEligible o; BackupState := BackupState o;
     PublicKey := PublicKey o |}.

Definition set_AAGUID (v : option string) (o : t) : t :=
  {| ID := ID o; CreatedAt := CreatedAt o; LastUsedAt := LastUsedAt o;
     RPID := RPID o; Username := Username o; Description := Description o;
     KID := KID o; AAGUID := v; AttestationType := AttestationType o;
     Attachment := Attachment o; Transports := Transports o;
     SignCount := SignCount o; CloneWarning := CloneWarning o;
     Discoverable := Discoverable o; Present := Present o;
     Verified := Verified o; BackupEligible := BackupEligible o;
     BackupState := BackupState o; PublicKey := PublicKey o |}.
End WebAuthnDeviceData.

(** ** Results of fallible conversions *)

Inductive result (A : Type) : Type :=
  | Ok (a : A)
  | Err (e : error).
Arguments Ok {A} a.
Arguments Err {A} e.

(** What a call of a method on a pointer receiver that may panic leaves
    behind: it returned, or it panicked after the writes made so far. *)
Inductive outcome : Type :=
  | Returned
  | Panicked.

(** ** The methods of [webauthn.go] *)

Section Methods.
Context `{L : Libraries}.

(** [HasFIDOU2F]: true if a device has attestation type [fido-u2f]. *)
Fixpoint HasFIDOU2F_loop (devices : list WebAuthnDevice.t) : bool :=
  match devices with
  | [] => false
  | c :: rest =>
      if decide (WebAuthnDevice.AttestationType c = attestationTypeFIDOU2F)
      then true
      else HasFIDOU2F_loop rest
  end.

Definition HasFIDOU2F (w : WebAuthnUser.t) : bool :=
  HasFIDOU2F_loop (WebAuthnUser.Devices w).

(** The inner loop of [WebAuthnCredentials] (lines 96-102): every
    non-empty segment is appended to the credential's transport list. *)
Fixpoint appendTransports (transports : list string) (acc : list string)
  : list string :=
  match transports with
  | [] => acc
  | t :: rest =>
      if decide (t = "") then appendTransports rest acc
      else appendTransports rest (acc ++ [t])
  end.

(** The struct literal of lines 75-91. *)
Definition newCredential (device : WebAuthnDevice.t) (aaguid : list byte)
  : Credential.t :=
  {| Credential.ID := Base64_Bytes (WebAuthnDevice.KID device);
     Credential.PublicKey := WebAuthnDevice.PublicKey device;
     Credential.AttestationType := WebAuthnDevice.AttestationType device;
     Credential.Transport := None;
     Credential.Flags :=
       {| CredentialFlags.UserPresent := WebAuthnDevice.Present device;
          CredentialFlags.UserVerified := WebAuthnDevice.Verified device;
          CredentialFlags.BackupEligible := WebAuthnDevice.BackupEligible device;
          CredentialFlags.BackupState := WebAuthnDevice.BackupState device |};
     Credential.Authenticator :=
       {| Authenticator.AAGUID := aaguid;
          Authenticator.SignCount := WebAuthnDevice.SignCount device;
          Authenticator.CloneWarning := WebAuthnDevice.CloneWarning device;
          Authenticator.Attachment := WebAuthnDevice.Attachment device |} |}.

(** The body of the loop of [WebAuthnCredentials] for a device whose
    AAGUID was marshalled (lines 75-102). *)
Definition deviceCredential (device : WebAuthnDevice.t) (aaguid : list byte)
  : Credential.t :=
  let credential := newCredential device aaguid in
  let transports := Split (WebAuthnDevice.Transport device) comma in
  let credential := Credential.set_Transport (Some []) credential in
  Credential.set_Transport
    (Some (appendTransports transports (elems (Credential.Transport credential))))
    credential.

(** [for i, device := range w.Devices]: [credentials[i] = credential]
    unless [MarshalBinary] failed, in which case the loop continues. *)
Fixpoint WebAuthnCredentials_loop (i : nat) (devices : list WebAuthnDevice.t)
    (credentials : list Credential.t) : list Credential.t :=
  match devices with
  | [] => credentials
  | device :: rest =>
      let '(aaguid, err) := NullUUID_MarshalBinary (WebAuthnDevice.AAGUID device) in
      match err with
      | Some _ => WebAuthnCredentials_loop (S i) rest credentials
      | None =>
          WebAuthnCredentials_loop (S i) rest
            (<[i := deviceCredential device aaguid]> credentials)
      end
  end.

(** [credentials = make([]webauthn.Credential, len(w.Devices))], then the loop. *)
Definition WebAuthnCredentials (w : WebAuthnUser.t) : list Credential.t :=
  WebAuthnCredentials_loop 0 (WebAuthnUser.Devices w)
    (replicate (length (WebAuthnUser.Devices w)) Credential.zero).

(** [NewWebAuthnDeviceFromCredential]; [now] is the value of [time.Now()]. *)
Definition NewWebAuthnDeviceFromCredential (now : Time)
    (rpid username description : string) (credential : Credential.t)
  : WebAuthnDevice.t :=
  let transport := elems (Credential.Transport credential) in
  let device :=
    {| WebAuthnDevice.ID := 0;
       WebAuthnDevice.CreatedAt := now;
       WebAuthnDevice.LastUsedAt := NullTime.zero;
       WebAuthnDevice.RPID := rpid;
       WebAuthnDevice.Username := username;
       WebAuthnDevice.Description := description;
       WebAuthnDevice.KID := NewBase64 (Credential.ID credential);
       WebAuthnDevice.AAGUID := NullUUID.zero;
       WebAuthnDevice.AttestationType := Credential.AttestationType credential;
       WebAuthnDevice.Attachment :=
         Authenticator.Attachment (Credential.Authenticator credential);
       WebAuthnDevice.Transport := Join transport ",";
       WebAuthnDevice.SignCount :=
         Authenticator.SignCount (Credential.Authenticator credential);
       WebAuthnDevice.CloneWarning :=
         Authenticator.CloneWarning (Credential.Authenticator credential);
       WebAuthnDevice.Discoverable := false;
       WebAuthnDevice.Present :=
         CredentialFlags.UserPresent (Credential.Flags credential);
       WebAuthnDevice.Verified :=
         CredentialFlags.UserVerified (Credential.Flags credential);
       WebAuthnDevice.BackupEligible :=
         CredentialFlags.BackupEligible (Credential.Flags credential);
       WebAuthnDevice.BackupState :=
         CredentialFlags.BackupState (Credential.Flags credential);
       WebAuthnDevice.PublicKey := Credential.PublicKey credential |} in
  let '(aaguid, err) :=
    uuid_Parse
      (hex_EncodeToString (Authenticator.AAGUID (Credential.Authenticator credential))) in
  match err with
  | None =>
      if decide (UUID_ID aaguid ≠ 0)
      then WebAuthnDevice.set_AAGUID
             {| NullUUID.Valid := true; NullUUID.UUID := aaguid |} device
      else device
  | Some _ => device
  end.

(** [UpdateSignInInfo]: the device after the call and how the call ended.
    [config] is a pointer: reading a field of a nil [config] panics, and
    so does [config.RPOrigins[0]] on an empty list of origins. *)
Definition UpdateSignInInfo (config : option Config.t) (now : Time) (signCount : Z)
    (d : WebAuthnDevice.t) : WebAuthnDevice.t * outcome :=
  let d := WebAuthnDevice.set_LastUsedAt
             {| NullTime.Time := now; NullTime.Valid := true |} d in
  let d := WebAuthnDevice.set_SignCount signCount d in
  if decide (WebAuthnDevice.RPID d ≠ "") then (d, Returned)
  else if decide (WebAuthnDevice.AttestationType d = attestationTypeFIDOU2F)
  then match config with
       | Some config =>
           match Config.RPOrigins config with
           | origin :: _ => (WebAuthnDevice.set_RPID origin d, Returned)
           | [] => (d, Panicked)
           end
       | None => (d, Panicked)
       end
  else match config with
       | Some config => (WebAuthnDevice.set_RPID (Config.RPID config) d, Returned)
       | None => (d, Panicked)
       end.

Definition DataValueLastUsedAt (d : WebAuthnDevice.t) : option Time :=
  if NullTime.Valid (WebAuthnDevice.LastUsedAt d)
  then Some (NullTime.Time (WebAuthnDevice.LastUsedAt d))
  else None.

Definition DataValueAAGUID (d : WebAuthnDevice.t) : option string :=
  if NullUUID.Valid (WebAuthnDevice.AAGUID d)
  then Some (UUID_String (NullUUID.UUID (WebAuthnDevice.AAGUID d)))
  else None.

(** [ToData]: the struct literal names every field of the document but
    [Transports] and [Discoverable], which keep their zero values; the
    transports are then set for a non-empty transport string. *)
Definition ToData (d : WebAuthnDevice.t) : WebAuthnDeviceData.t :=
  let o :=
    {| WebAuthnDeviceData.ID := WebAuthnDevice.ID d;
       WebAuthnDeviceData.CreatedAt := WebAuthnDevice.CreatedAt d;
       WebAuthnDeviceData.LastUsedAt := DataValueLastUsedAt d;
       WebAuthnDeviceData.RPID := WebAuthnDevice.RPID d;
       WebAuthnDeviceData.Username := WebAuthnDevice.Username d;
       WebAuthnDeviceData.Description := WebAuthnDevice.Description d;
       WebAuthnDeviceData.KID := Base64_String (WebAuthnDevice.KID d);
       WebAuthnDeviceData.AAGUID := DataValueAAGUID d;
       WebAuthnDeviceData.AttestationType := WebAuthnDevice.AttestationType d;
       WebAuthnDeviceData.Attachment := WebAuthnDevice.Attachment d;
       WebAuthnDeviceData.Transports := None;
       WebAuthnDeviceData.SignCount := WebAuthnDevice.SignCount d;
       WebAuthnDeviceData.CloneWarning := WebAuthnDevice.CloneWarning d;
       WebAuthnDeviceData.Discoverable := false;
       WebAuthnDeviceData.Present := WebAuthnDevice.Present d;
       WebAuthnDeviceData.Verified := WebAuthnDevice.Verified d;
       WebAuthnDeviceData.BackupEligible := WebAuthnDevice.BackupEligible d;
       WebAuthnDeviceData.BackupState := WebAuthnDevice.BackupState d;
       WebAuthnDeviceData.PublicKey :=
         base64_EncodeToString (WebAuthnDevice.PublicKey d) |} in
  if decide (WebAuthnDevice.Transport d ≠ "")
  then WebAuthnDeviceData.set_Transports
         (Some (Split (WebAuthnDevice.Transport d) comma)) o
  else o.

(** [MarshalYAML] returns [d.ToData(), nil]. *)
Definition MarshalYAML (d : WebAuthnDevice.t) : WebAuthnDeviceData.t * option error :=
  (ToData d, None).

(** The AAGUID block shared by [ToDevice] and [UnmarshalYAML]
    (lines 354-364 and 267-277): parse the string when there is one, and
    store the UUID when its [ID()] is not zero. *)
Definition setAAGUID (aaguid : option string) (device : WebAuthnDevice.t)
  : result WebAuthnDevice.t :=
  match aaguid with
  | Some s =>
      let '(aaguid, err) := uuid_Parse s in
      match err with
      | Some e => Err e
      | None =>
          if decide (UUID_ID aaguid ≠ 0)
          then Ok (WebAuthnDevice.set_AAGUID
                     {| NullUUID.Valid := true; NullUUID.UUID := aaguid |} device)
          else Ok device
      end
  | None => Ok device
  end.

(** [ToDevice]: [Err e] is the return [(nil, e)]. *)
Definition ToDevice (d : WebAuthnDeviceData.t) : result WebAuthnDevice.t :=
  let device :=
    {| WebAuthnDevice.ID := 0;
       WebAuthnDevice.CreatedAt := WebAuthnDeviceData.CreatedAt d;
       WebAuthnDevice.LastUsedAt := NullTime.zero;
       WebAuthnDevice.RPID := WebAuthnDeviceData.RPID d;
       WebAuthnDevice.Username := WebAuthnDeviceData.Username d;
       WebAuthnDevice.Description := WebAuthnDeviceData.Description d;
       WebAuthnDevice.KID := Base64.zero;
       WebAuthnDevice.AAGUID := NullUUID.zero;
       WebAuthnDevice.AttestationType := WebAuthnDeviceData.AttestationType d;
       WebAuthnDevice.Attachment := WebAuthnDeviceData.Attachment d;
       WebAuthnDevice.Transport :=
         Join (elems (WebAuthnDeviceData.Transports d)) ",";
       WebAuthnDevice.SignCount := WebAuthnDeviceData.SignCount d;
       WebAuthnDevice.CloneWarning := WebAuthnDeviceData.CloneWarning d;
       WebAuthnDevice.Discoverable := WebAuthnDeviceData.Discoverable d;
       WebAuthnDevice.Present := WebAuthnDeviceData.Present d;
       WebAuthnDevice.Verified := WebAuthnDeviceData.Verified d;
       WebAuthnDevice.BackupEligible := WebAuthnDeviceData.BackupEligible d;
       WebAuthnDevice.BackupState := WebAuthnDeviceData.BackupState d;
       WebAuthnDevice.PublicKey := [] |} in
  let '(publicKey, err) := base64_DecodeString (WebAuthnDeviceData.PublicKey d) in
  match err with
  | Some e => Err e
  | None =>
      let device := WebAuthnDevice.set_PublicKey publicKey device in
      match setAAGUID (WebAuthnDeviceData.AAGUID d) device with
      | Err e => Err e
      | Ok device =>
          let '(kid, err) := base64_DecodeString (WebAuthnDeviceData.KID d) in
          match err with
          | Some e => Err e
          | None =>
              let device := WebAuthnDevice.set_KID (NewBase64 kid) device in
              match WebAuthnDeviceData.LastUsedAt d with
              | Some t =>
                  Ok (WebAuthnDevice.set_LastUsedAt
                        {| NullTime.Valid := true; NullTime.Time := t |} device)
              | None => Ok device
              end
          end
      end
  end.

(** [UnmarshalYAML]: [decoded] is the outcome of [value.Decode(o)] on a
    fresh document; the result is the receiver after the call and the
    returned error. The receiver's public key is written before the
    error of its decoding is looked at. *)
Definition UnmarshalYAML (decoded : WebAuthnDeviceData.t * option error)
    (d : WebAuthnDevice.t) : WebAuthnDevice.t * option error :=
  let '(o, err) := decoded in
  match err with
  | Some e => (d, Some e)
  | None =>
      let '(publicKey, err) := base64_DecodeString (WebAuthnDeviceData.PublicKey o) in
      let d := WebAuthnDevice.set_PublicKey publicKey d in
      match err with
      | Some e => (d, Some e)
      | None =>
          match setAAGUID (WebAuthnDeviceData.AAGUID o) d with
          | Err e => (d, Some e)
          | Ok d =>
              let '(kid, err) := base64_DecodeString (WebAuthnDeviceData.KID o) in
              match err with
              | Some e => (d, Some e)
              | None =>
                  ({| WebAuthnDevice.ID := WebAuthnDevice.ID d;
                      WebAuthnDevice.CreatedAt := WebAuthnDeviceData.CreatedAt o;
                      WebAuthnDevice.LastUsedAt :=
                        match WebAuthnDeviceData.LastUsedAt o with
                        | Some t => {| NullTime.Valid := true; NullTime.Time := t |}
                        | None => WebAuthnDevice.LastUsedAt d
                        end;
                      WebAuthnDevice.RPID := WebAuthnDeviceData.RPID o;
                      WebAuthnDevice.Username := WebAuthnDeviceData.Username o;
                      WebAuthnDevice.Description := WebAuthnDeviceData.Description o;
                      WebAuthnDevice.KID := NewBase64 kid;
                      WebAuthnDevice.AAGUID := WebAuthnDevice.AAGUID d;
                      WebAuthnDevice.AttestationType :=
                        WebAuthnDeviceData.AttestationType o;
                      WebAuthnDevice.Attachment := WebAuthnDeviceData.Attachment o;
                      WebAuthnDevice.Transport :=
                        Join (elems (WebAuthnDeviceData.Transports o)) ",";
                      WebAuthnDevice.SignCount := WebAuthnDeviceData.SignCount o;
                      WebAuthnDevice.CloneWarning := WebAuthnDeviceData.CloneWarning o;
                      WebAuthnDevice.Discoverable := WebAuthnDeviceData.Discoverable o;
                      WebAuthnDevice.Present := WebAuthnDeviceData.Present o;
                      WebAuthnDevice.Verified := WebAuthnDeviceData.Verified o;
                      WebAuthnDevice.BackupEligible :=
                        WebAuthnDeviceData.BackupEligible o;
                      WebAuthnDevice.BackupState := WebAuthnDeviceData.BackupState o;
                      WebAuthnDevice.PublicKey := WebAuthnDevice.PublicKey d |},
                   None)
              end
          end
      end
  end.

End Methods.

(** ** The Transport Set Codec

    Encoding joins the tags with commas (line 139); decoding splits at
    commas and drops empty segments (lines 93-102). *)

Definition encodeTransports (T : list string) : string := Join T ",".

Definition decodeTransports (s : string) : list string :=
  appendTransports (Split s comma) [].

(** ** A reference implementation of the external packages

    Executable definitions of the library functions the model calls,
    written after the Go packages, to run the model on concrete values. *)

Module Reference.

Definition byteN (b : byte) : N := Byte.to_N b.

Definition Nbyte (n : N) : byte :=
  match Byte.of_N n with
  | Some b => b
  | None => x00
  end.

Definition charAt (s : string) (i : nat) : ascii :=
  match String.get i s with
  | Some c => c
  | None => "000"%char
  end.

(** *** [encoding/hex] *)

Definition hextable : string := "0123456789abcdef".

Fixpoint hex_EncodeToString (src : list byte) : string :=
  match src with
  | [] => ""
  | v :: rest =>
      String (charAt hextable (N.to_nat (N.shiftr (byteN v) 4)))
        (String (charAt hextable (N.to_nat (N.land (byteN v) 15)))
           (hex_EncodeToString rest))
  end.

(** *** [github.com/google/uuid] *)

(** The table [xvalues]: the value of a hexadecimal digit, 255 otherwise. *)
Definition xvalue (c : ascii) : N :=
  let n := N_of_ascii c in
  if ((48 <=? n) && (n <=? 57))%N then (n - 48)%N
  else if ((65 <=? n) && (n <=? 70))%N then (n - 55)%N
  else if ((97 <=? n) && (n <=? 102))%N then (n - 87)%N
  else 255%N.

(** [xtob]: the byte written by two hexadecimal digits. *)
Definition xtob (x1 x2 : ascii) : option byte :=
  let b1 := xvalue x1 in
  let b2 := xvalue x2 in
  if (negb (b1 =? 255) && negb (b2 =? 255))%N
  then Some (Nbyte (N.lor (N.shiftl b1 4) b2))
  else None.

Fixpoint parseAt (s : string) (offsets : list nat) (i : nat) (uuid : UUID)
  : UUID * option error :=
  match offsets with
  | [] => (uuid, None)
  | x :: rest =>
      match xtob (charAt s x) (charAt s (S x)) with
      | Some v => parseAt s rest (S i) (<[i := v]> uuid)
      | None => (uuid, Some "invalid UUID format")
      end
  end.

Definition lower (c : ascii) : ascii :=
  let n := N_of_ascii c in
  if ((65 <=? n) && (n <=? 90))%N then ascii_of_N (n + 32) else c.

Fixpoint EqualFold (s t : string) : bool :=
  match s, t with
  | EmptyString, EmptyString => true
  | String a s', String b t' =>
      if decide (lower a = lower b) then EqualFold s' t' else false
  | _, _ => false
  end.

Definition canonicalOffsets : list nat :=
  [0; 2; 4; 6; 9; 11; 14; 16; 19; 21; 24; 26; 28; 30; 32; 34]%nat.

Definition plainOffsets : list nat :=
  [0; 2; 4; 6; 8; 10; 12; 14; 16; 18; 20; 22; 24; 26; 28; 30]%nat.

Definition parseCanonical (s : string) : UUID * option error :=
  if decide (charAt s 8 = "-"%char ∧ charAt s 13 = "-"%char ∧
             charAt s 18 = "-"%char ∧ charAt s 23 = "-"%char)
  then parseAt s canonicalOffsets 0 uuid_Nil
  else (uuid_Nil, Some "invalid UUID format").

(** [strconv.Quote], the verb [%q], on a string of bytes: the string
    between double quotes, a quote or a backslash after a backslash, the
    control characters by their escapes, and [\x] with two hexadecimal
    digits for any other byte outside printable ASCII. *)
Definition quoteChar : ascii := ascii_of_N 34.

Definition escape (c : ascii) : string :=
  let n := N_of_ascii c in
  if (n =? 34)%N then String "\"%char (String quoteChar "")
  else if (n =? 92)%N then "\\"
  else if (n =? 7)%N then "\a"
  else if (n =? 8)%N then "\b"
  else if (n =? 12)%N then "\f"
  else if (n =? 10)%N then "\n"
  else if (n =? 13)%N then "\r"
  else if (n =? 9)%N then "\t"
  else if (n =? 11)%N then "\v"
  else if ((32 <=? n) && (n <=? 126))%N then String c ""
  else String "\"%char (String "x"%char
         (String (charAt hextable (N.to_nat (N.shiftr n 4)))
            (String (charAt hextable (N.to_nat (N.land n 15))) ""))).

Fixpoint escapes (s : string) : string :=
  match s with
  | EmptyString => ""
  | String c rest => escape c +:+ escapes rest
  end.

Definition Quote (s : string) : string :=
  String quoteChar (escapes s +:+ String quoteChar "").

(** [uuid.Parse]: the forms of 36, 36+9, 36+2 and 32 bytes. *)
Definition uuid_Parse (s : string) : UUID * option error :=
  let n := String.length s in
  if decide (n = 36%nat) then parseCanonical s
  else if decide (n = 45%nat) then
    if EqualFold (String.substring 0 9 s) "urn:uuid:"
    then parseCanonical (String.substring 9 36 s)
    else (uuid_Nil, Some ("invalid urn prefix: " +:+ Quote (String.substring 0 9 s)))
  else if decide (n = 38%nat) then parseCanonical (String.substring 1 37 s)
  else if decide (n = 32%nat) then parseAt s plainOffsets 0 uuid_Nil
  else (uuid_Nil, Some ("invalid UUID length: " +:+ pretty n)).

(** [UUID.String]: [xxxxxxxx-xxxx-xxxx-xxxx-xxxxxxxxxxxx]. *)
Definition UUID_String (u : UUID) : string :=
  hex_EncodeToString (take 4 u) +:+ "-" +:+
  hex_EncodeToString (take 2 (drop 4 u)) +:+ "-" +:+
  hex_EncodeToString (take 2 (drop 6 u)) +:+ "-" +:+
  hex_EncodeToString (take 2 (drop 8 u)) +:+ "-" +:+
  hex_EncodeToString (drop 10 u).

(** [NullUUID.MarshalBinary]: the 16 bytes of a valid UUID, no bytes
    otherwise; the error is always nil. *)
Definition NullUUID_MarshalBinary (nu : NullUUID.t) : list byte * option error :=
  if NullUUID.Valid nu then (NullUUID.UUID nu, None) else ([], None).

(** *** [encoding/base64], [StdEncoding] *)

Definition encodeStd : string :=
  "ABCDEFGHIJKLMNOPQRSTUVWXYZabcdefghijklmnopqrstuvwxyz0123456789+/".

Definition enc (n : N) : ascii := charAt encodeStd (N.to_nat (N.land n 63)).

Definition padChar : ascii := "="%char.

Fixpoint base64_EncodeToString (src : list byte) : string :=
  match src with
  | [] => ""
  | [a] =>
      let v := N.shiftl (byteN a) 16 in
      String (enc (N.shiftr v 18)) (String (enc (N.shiftr v 12))
        (String padChar (String padChar "")))
  | [a; b] =>
      let v := N.lor (N.shiftl (byteN a) 16) (N.shiftl (byteN b) 8) in
      String (enc (N.shiftr v 18)) (String (enc (N.shiftr v 12))
        (String (enc (N.shiftr v 6)) (String padChar "")))
  | a :: b :: c :: rest =>
      let v := N.lor (N.lor (N.shiftl (byteN a) 16) (N.shiftl (byteN b) 8))
                     (byteN c) in
      String (enc (N.shiftr v 18)) (String (enc (N.shiftr v 12))
        (String (enc (N.shiftr v 6)) (String (enc v)
           (base64_EncodeToString rest))))
  end.

(** The decode map: the index of a character of the alphabet. *)
Definition dec (c : ascii) : option N :=
  let n := N_of_ascii c in
  if ((65 <=? n) && (n <=? 90))%N then Some (n - 65)%N
  else if ((97 <=? n) && (n <=? 122))%N then Some (n - 71)%N
  else if ((48 <=? n) && (n <=? 57))%N then Some (n + 4)%N
  else if (n =? 43)%N then Some 62%N
  else if (n =? 47)%N then Some 63%N
  else None.

(** [CorruptInputError]: the offset of the byte the decoder stops at. *)
Definition CorruptInputError (offset : nat) : error :=
  "illegal base64 data at input byte " +:+ pretty offset.

(** The bytes of a quantum: the first [k] of the three bytes of [v]. *)
Definition quantum (v : N) (k : nat) : list byte :=
  take k [Nbyte (N.land (N.shiftr v 16) 255);
          Nbyte (N.land (N.shiftr v 8) 255);
          Nbyte (N.land v 255)].

Definition isNewline (c : ascii) : bool :=
  let n := N_of_ascii c in ((n =? 10) || (n =? 13))%N.

(** The input from offset [si] on, without the newlines it starts with. *)
Fixpoint skipNewlines (src : list ascii) (si : nat) : list ascii * nat :=
  match src with
  | c :: rest => if isNewline c then skipNewlines rest (S si) else (src, si)
  | [] => ([], si)
  end.

(** The end of a quantum of [dlen] characters closed by its padding:
    newlines may follow; anything else is an error, reported with the
    bytes of the quantum. *)
Definition closeQuantum (val : N) (dlen : nat) (src : list ascii) (si : nat)
  : list byte * option error :=
  let '(rest, si) := skipNewlines src si in
  (quantum (N.shiftl val (6 * N.of_nat (4 - dlen))) (dlen - 1),
   match rest with
   | [] => None
   | _ :: _ => Some (CorruptInputError si)
   end).

(** [Decode], quantum by quantum as [decodeQuantum] reads them: [src] is
    the input from offset [si] on, [j] the number of characters of the
    current quantum read so far and [val] their bits. Newlines are
    skipped; an error comes with the bytes of the quanta decoded before
    it. *)
Fixpoint decode (src : list ascii) (si j : nat) (val : N)
  : list byte * option error :=
  match src with
  | [] =>
      ([], match j with
           | O => None
           | S _ => Some (CorruptInputError (si - j))
           end)
  | c :: rest =>
      match dec c with
      | Some out =>
          let val := N.lor (N.shiftl val 6) out in
          match j with
          | 3%nat =>
              let '(bytes, err) := decode rest (S si) 0 0%N in
              (quantum val 3 ++ bytes, err)
          | _ => decode rest (S si) (S j) val
          end
      | None =>
          if isNewline c then decode rest (S si) j val
          else if decide (c = padChar) then
            match j with
            | 0%nat | 1%nat => ([], Some (CorruptInputError si))
            | 2%nat =>
                let '(rest', si') := skipNewlines rest (S si) in
                match rest' with
                | [] => ([], Some (CorruptInputError si'))
                | c' :: rest'' =>
                    if decide (c' = padChar)
                    then closeQuantum val 2 rest'' (S si')
                    else ([], Some (CorruptInputError (si' - 1)))
                end
            | _ => closeQuantum val 3 rest (S si)
            end
          else ([], Some (CorruptInputError si))
      end
  end.

(** [DecodeString]: the bytes decoded, with the error that stopped the
    decoder if there is one. *)
Definition base64_DecodeString (s : string) : list byte * option error :=
  decode (String.list_ascii_of_string s) 0 0 0%N.

End Reference.

#[export] Instance byte_eq_dec : EqDecision byte := Byte.byte_eq_dec.

(** The packages as the Go module provides them. *)
Definition goLibraries : Libraries :=
  {| base64_EncodeToString := Reference.base64_EncodeToString;
     base64_DecodeString := Reference.base64_DecodeString;
     hex_EncodeToString := Reference.hex_EncodeToString;
     uuid_Parse := Reference.uuid_Parse;
     UUID_String := Reference.UUID_String;
     NullUUID_MarshalBinary := Reference.NullUUID_MarshalBinary |}.

(** ** The migration to [webauthn_devices]

    A relational model of the statements the migration script runs: a
    table is its column definitions, its rows in insertion order and the
    next value of its [SERIAL] sequence; a row maps column names to
    values; a statement maps a database to a database or fails. *)

Module Sql.

Inductive value : Type :=
  | Null
  | Int (z : Z)
  | Text (s : string)
  | Bytea (b : list byte)
  | Boolean (b : bool)
  | Timestamp (t : Z).

#[global] Instance value_eq_dec : EqDecision value.
Proof. solve_decision. Defined.

Inductive coltype : Type :=
  | SERIAL
  | TIMESTAMPTZ
  | TEXT
  | VARCHAR (n : nat)
  | CHAR (n : nat)
  | BYTEA
  | INTEGER
  | BOOLEAN.

(** A column definition. [DEFAULT] clauses are left out: the migration
    inserts every column but [id], whose default is its sequence. *)
Record column := { col_name : string; col_type : coltype; col_not_null : bool }.

Abbreviation row := (gmap string value).

Record table := {
  tbl_columns : list column;
  tbl_rows : list row;
  tbl_nextval : Z
}.

(** A unique index: its table and its columns. *)
Record index := { idx_table : string; idx_columns : list string }.

Record database := {
  tables : gmap string table;
  indexes : gmap string index
}.

(** The part of the database engine in an assignment: [store ty v] is
    what a column of type [ty] keeps when the value [v] is assigned to it,
    or [None] when the engine refuses the value. It stands for the casts
    of the engine, its length checks and the blank padding of [CHAR(n)];
    the script has no say in it, and what is proved of the script holds
    for every engine. *)
Class Engine := { store : coltype → value → option value }.

(** The key of a row in an index. *)
Definition key (cols : list string) (r : row) : list value :=
  (fun c => default Null (r !! c)) <$> cols.

(** Two rows collide in a unique index when their keys are equal and
    hold no [NULL]. *)
Definition collide (cols : list string) (r1 r2 : row) : bool :=
  bool_decide (key cols r1 = key cols r2) && bool_decide (Null ∉ key cols r1).

Fixpoint unique_rows (cols : list string) (rows : list row) : bool :=
  match rows with
  | [] => true
  | r :: rest =>
      forallb (fun r' => negb (collide cols r r')) rest && unique_rows cols rest
  end.

(** [CREATE TABLE IF NOT EXISTS name (...)] with a primary key on the
    [SERIAL] column [id], whose index is named [pkey]. *)
Definition create_table_if_not_exists (name : string) (cols : list column)
    (pkey : string) (db : database) : option database :=
  match tables db !! name with
  | Some _ => Some db
  | None =>
      match indexes db !! pkey with
      | Some _ => None
      | None =>
          Some {| tables :=
                    <[name := {| tbl_columns := cols; tbl_rows := [];
                                 tbl_nextval := 1 |}]> (tables db);
                  indexes :=
                    <[pkey := {| idx_table := name; idx_columns := ["id"] |}]>
                      (indexes db) |}
      end
  end.

(** [CREATE UNIQUE INDEX idx ON tbl (cols)] *)
Definition create_unique_index (idx tbl : string) (cols : list string)
    (db : database) : option database :=
  match indexes db !! idx with
  | Some _ => None
  | None =>
      match tables db !! tbl with
      | None => None
      | Some t =>
          if unique_rows cols (tbl_rows t)
          then Some {| tables := tables db;
                       indexes :=
                         <[idx := {| idx_table := tbl; idx_columns := cols |}]>
                           (indexes db) |}
          else None
      end
  end.

(** The value assigned to column [c] by [INSERT INTO t (tcols) SELECT scols]
    from the source row [r]: the selected value at the position of [c] in
    [tcols], or the default of a column that is not listed. *)
Fixpoint assigned (c : string) (tcols scols : list string) (r : row)
  : option (option value) :=
  match tcols, scols with
  | t :: tcols', s :: scols' =>
      if decide (t = c) then Some (r !! s) else assigned c tcols' scols' r
  | _, _ => None
  end.

Section Statements.
Context `{E : Engine}.

(** The last value of the sequence of a [SERIAL] column. *)
Definition serial_max : Z := 2147483647.

(** The stored value of one column of the new row; [None] is an error.
    A listed column takes the selected value as the engine stores it: it
    is an error when the selected column is missing or the engine refuses
    the value. A column that is not listed takes its default: the next
    value of the sequence for [SERIAL], an error when the sequence is
    used up, and [NULL] otherwise. [NULL] in a [NOT NULL] column is an
    error. *)
Definition new_value (nextval : Z) (tcols scols : list string) (r : row)
    (c : column) : option value :=
  v ← match assigned (col_name c) tcols scols r with
      | Some selected => selected ≫= store (col_type c)
      | None =>
          match col_type c with
          | SERIAL =>
              if decide (nextval ≤ serial_max) then Some (Int nextval) else None
          | _ => Some Null
          end
      end;
  if col_not_null c && bool_decide (v = Null) then None else Some v.

Fixpoint new_row (nextval : Z) (tcols scols : list string) (r : row)
    (cols : list column) : option row :=
  match cols with
  | [] => Some ∅
  | c :: rest =>
      v ← new_value nextval tcols scols r c;
      r' ← new_row nextval tcols scols r rest;
      Some (<[col_name c := v]> r')
  end.

(** One row of [INSERT ... SELECT]: build it, check every unique index of
    the table against the rows already there, append it. *)
Definition insert_one (idxs : list (list string)) (tcols scols : list string)
    (t : table) (r : row) : option table :=
  r' ← new_row (tbl_nextval t) tcols scols r (tbl_columns t);
  if forallb (fun cols =>
                forallb (fun old => negb (collide cols r' old)) (tbl_rows t)) idxs
  then Some {| tbl_columns := tbl_columns t;
               tbl_rows := tbl_rows t ++ [r'];
               tbl_nextval := tbl_nextval t + 1 |}
  else None.

Fixpoint insert_rows (idxs : list (list string)) (tcols scols : list string)
    (t : table) (rs : list row) : option table :=
  match rs with
  | [] => Some t
  | r :: rest =>
      t' ← insert_one idxs tcols scols t r;
      insert_rows idxs tcols scols t' rest
  end.

(** [WHERE c = TRUE] on one row: an error without the column, false for
    [NULL]. *)
Definition is_true (c : string) (r : row) : option bool :=
  v ← r !! c; Some (bool_decide (v = Boolean true)).

Fixpoint select_where (c : string) (rs : list row) : option (list row) :=
  match rs with
  | [] => Some []
  | r :: rest =>
      b ← is_true c r;
      sel ← select_where c rest;
      Some (if b : bool then r :: sel else sel)
  end.

Definition indexes_of (tbl : string) (db : database) : list (list string) :=
  idx_columns <$> (map_to_list (filter (fun kv => idx_table kv.2 = tbl) (indexes db))).*2.

(** [INSERT INTO target (tcols) SELECT scols FROM source WHERE c = TRUE] *)
Definition insert_select (target : string) (tcols : list string)
    (scols : list string) (source : string) (c : string) (db : database)
  : option database :=
  src ← tables db !! source;
  tgt ← tables db !! target;
  sel ← select_where c (tbl_rows src);
  tgt' ← insert_rows (indexes_of target db) tcols scols tgt sel;
  Some {| tables := <[target := tgt']> (tables db); indexes := indexes db |}.

(** [DROP TABLE IF EXISTS name]: the table goes with its indexes. *)
Definition drop_table_if_exists (name : string) (db : database) : option database :=
  Some {| tables := delete name (tables db);
          indexes := filter (fun kv => idx_table kv.2 ≠ name) (indexes db) |}.

(** *** The script *)

Definition webauthn_devices_columns : list column :=
  [ {| col_name := "id"; col_type := SERIAL; col_not_null := true |};
    {| col_name := "created_at"; col_type := TIMESTAMPTZ; col_not_null := true |};
    {| col_name := "last_used_at"; col_type := TIMESTAMPTZ; col_not_null := false |};
    {| col_name := "rpid"; col_type := TEXT; col_not_null := false |};
    {| col_name := "username"; col_type := VARCHAR 100; col_not_null := true |};
    {| col_name := "description"; col_type := VARCHAR 30; col_not_null := true |};
    {| col_name := "kid"; col_type := VARCHAR 512; col_not_null := true |};
    {| col_name := "public_key"; col_type := BYTEA; col_not_null := true |};
    {| col_name := "attestation_type"; col_type := VARCHAR 32; col_not_null := false |};
    {| col_name := "transport"; col_type := VARCHAR 64; col_not_null := false |};
    {| col_name := "aaguid"; col_type := CHAR 36; col_not_null := true |};
    {| col_name := "sign_count"; col_type := INTEGER; col_not_null := false |};
    {| col_name := "clone_warning"; col_type := BOOLEAN; col_not_null := true |} ].

(** The column list of the [INSERT], which is also that of its [SELECT]. *)
Definition copied_columns : list string :=
  [ "created_at"; "last_used_at"; "rpid"; "username"; "description"; "kid";
    "public_key"; "attestation_type"; "transport"; "aaguid"; "sign_count";
    "clone_warning" ].

Definition migration (db : database) : option database :=
  db ← create_table_if_not_exists "webauthn_devices" webauthn_devices_columns
          "webauthn_devices_pkey" db;
  db ← create_unique_index "webauthn_devices_kid_key" "webauthn_devices"
          ["kid"] db;
  db ← create_unique_index "webauthn_devices_lookup_key" "webauthn_devices"
          ["username"; "description"] db;
  db ← insert_select "webauthn_devices" copied_columns copied_columns
          "webauthn_credentials" "legacy" db;
  db ← drop_table_if_exists "webauthn_credentials" db;
  drop_table_if_exists "webauthn_users" db.

(** The rows of a table flagged [legacy = TRUE]. *)
Definition legacy_rows (t : table) : list row :=
  List.filter (fun r => bool_decide (r !! "legacy" = Some (Boolean true))) (tbl_rows t).



End Statements.

(** *** An engine for the examples

    The assignment of a value to a column of its own type, after
    PostgreSQL: an integer within 32 bits; a string to [VARCHAR(n)] and
    [CHAR(n)] when it has at most [n] characters or the characters past
    the [n]-th are all spaces, which are then cut off; [CHAR(n)] padded
    with spaces to [n] characters. This engine casts no value to another
    type: it refuses a value of a type that is not the column's, also
    where PostgreSQL has an assignment cast. The examples assign values
    of the column's type only. *)

Definition blank (s : string) : bool :=
  forallb (fun c => bool_decide (c = " "%char)) (String.list_ascii_of_string s).

Definition spaces (n : nat) : string :=
  String.string_of_list_ascii (replicate n " "%char).

Definition fit (n : nat) (s : string) : option string :=
  if decide (String.length s ≤ n)%nat then Some s
  else if blank (String.substring n (String.length s - n) s)
       then Some (String.substring 0 n s)
       else None.

Definition typed_store (ty : coltype) (v : value) : option value :=
  match v with
  | Null => Some Null
  | Int z =>
      match ty with
      | SERIAL | INTEGER =>
          if decide (-2147483648 ≤ z ≤ 2147483647) then Some v else None
      | _ => None
      end
  | Text s =>
      match ty with
      | TEXT => Some v
      | VARCHAR n => Text <$> fit n s
      | CHAR n =>
          (fun s' => Text (s' +:+ spaces (n - String.length s'))) <$> fit n s
      | _ => None
      end
  | Bytea _ => match ty with BYTEA => Some v | _ => None end
  | Boolean _ => match ty with BOOLEAN => Some v | _ => None end
  | Timestamp _ => match ty with TIMESTAMPTZ => Some v | _ => None end
  end.

Definition typedEngine : Engine := {| store := typed_store |}.

End Sql.

(** ** Predicates used to state the properties *)

(** [has_byte c s]: the byte [c] occurs in [s]. *)
Fixpoint has_byte (c : ascii) (s : string) : bool :=
  match s with
  | EmptyString => false
  | String a rest => bool_decide (a = c) || has_byte c rest
  end.

(** A transport tag the codec must round-trip: not empty, no comma. *)
Definition plain_tag (t : string) : Prop :=
  t ≠ "" ∧ has_byte comma t = false.

#[global] Instance plain_tag_dec t : Decision (plain_tag t).
Proof. unfold plain_tag. apply _. Defined.

(** The fields [UpdateSignInInfo] has no business with: all but
    [LastUsedAt], [SignCount] and [RPID]. *)
Definition same_outside_sign_in (d d' : WebAuthnDevice.t) : Prop :=
  WebAuthnDevice.ID d' = WebAuthnDevice.ID d ∧
  WebAuthnDevice.CreatedAt d' = WebAuthnDevice.CreatedAt d ∧
  WebAuthnDevice.Username d' = WebAuthnDevice.Username d ∧
  WebAuthnDevice.Description d' = WebAuthnDevice.Description d ∧
  WebAuthnDevice.KID d' = WebAuthnDevice.KID d ∧
  WebAuthnDevice.AAGUID d' = WebAuthnDevice.AAGUID d ∧
  WebAuthnDevice.AttestationType d' = WebAuthnDevice.AttestationType d ∧
  WebAuthnDevice.Attachment d' = WebAuthnDevice.Attachment d ∧
  WebAuthnDevice.Transport d' = WebAuthnDevice.Transport d ∧
  WebAuthnDevice.CloneWarning d' = WebAuthnDevice.CloneWarning d ∧
  WebAuthnDevice.Discoverable d' = WebAuthnDevice.Discoverable d ∧
  WebAuthnDevice.Present d' = WebAuthnDevice.Present d ∧
  WebAuthnDevice.Verified d' = WebAuthnDevice.Verified d ∧
  WebAuthnDevice.BackupEligible d' = WebAuthnDevice.BackupEligible d ∧
  WebAuthnDevice.BackupState d' = WebAuthnDevice.BackupState d ∧
  WebAuthnDevice.PublicKey d' = WebAuthnDevice.PublicKey d.

(** The three ways [ToDevice] can fail: the public key is not base64, the
    KID is not base64, an AAGUID string is there and is not a UUID. *)
Definition import_fails `{L : Libraries} (d : WebAuthnDeviceData.t) : Prop :=
  (base64_DecodeString (WebAuthnDeviceData.PublicKey d)).2 ≠ None ∨
  (base64_DecodeString (WebAuthnDeviceData.KID d)).2 ≠ None ∨
  (∃ s, WebAuthnDeviceData.AAGUID d = Some s ∧ (uuid_Parse s).2 ≠ None).

(** An absent AAGUID. *)
Definition absent (nu : NullUUID.t) : Prop := NullUUID.Valid nu = false.

(** The AAGUID of a device after a round trip through the document
    form: kept when it is valid with a non-zero [ID()], the zero value
    otherwise. *)
Definition normalAAGUID (nu : NullUUID.t) : NullUUID.t :=
  if NullUUID.Valid nu
  then if decide (UUID_ID (NullUUID.UUID nu) ≠ 0)
       then {| NullUUID.Valid := true; NullUUID.UUID := NullUUID.UUID nu |}
       else NullUUID.zero
  else NullUUID.zero.

(** The last-used time after a round trip: kept when valid, the zero
    value otherwise. *)
Definition normalTime (nt : NullTime.t) : NullTime.t :=
  if NullTime.Valid nt
  then {| NullTime.Valid := true; NullTime.Time := NullTime.Time nt |}
  else NullTime.zero.

(** What [ToDevice (ToData d)] is when the codecs give back what they
    were given: [d] without its [ID], with the AAGUID and the last-used
    time in normal form, and with [Discoverable] false. *)
Definition roundTrip (d : WebAuthnDevice.t) : WebAuthnDevice.t :=
  {| WebAuthnDevice.ID := 0;
     WebAuthnDevice.CreatedAt := WebAuthnDevice.CreatedAt d;
     WebAuthnDevice.LastUsedAt := normalTime (WebAuthnDevice.LastUsedAt d);
     WebAuthnDevice.RPID := WebAuthnDevice.RPID d;
     WebAuthnDevice.Username := WebAuthnDevice.Username d;
     WebAuthnDevice.Description := WebAuthnDevice.Description d;
     WebAuthnDevice.KID := NewBase64 (Base64_Bytes (WebAuthnDevice.KID d));
     WebAuthnDevice.AAGUID := normalAAGUID (WebAuthnDevice.AAGUID d);
     WebAuthnDevice.AttestationType := WebAuthnDevice.AttestationType d;
     WebAuthnDevice.Attachment := WebAuthnDevice.Attachment d;
     WebAuthnDevice.Transport := WebAuthnDevice.Transport d;
     WebAuthnDevice.SignCount := WebAuthnDevice.SignCount d;
     WebAuthnDevice.CloneWarning := WebAuthnDevice.CloneWarning d;
     WebAuthnDevice.Discoverable := false;
     WebAuthnDevice.Present := WebAuthnDevice.Present d;
     WebAuthnDevice.Verified := WebAuthnDevice.Verified d;
     WebAuthnDevice.BackupEligible := WebAuthnDevice.BackupEligible d;
     WebAuthnDevice.BackupState := WebAuthnDevice.BackupState d;
     WebAuthnDevice.PublicKey := WebAuthnDevice.PublicKey d |}.

(** ** Concrete values *)

Definition exampleConfig : Config.t :=
  {| Config.RPID := "example.com";
     Config.RPOrigins := ["https://example.com"] |}.

Definition u2fDevice : WebAuthnDevice.t :=
  {| WebAuthnDevice.ID := 7;
     WebAuthnDevice.CreatedAt := 1000;
     WebAuthnDevice.LastUsedAt := NullTime.zero;
     WebAuthnDevice.RPID := "";
     WebAuthnDevice.Username := "john";
     WebAuthnDevice.Description := "Primary";
     WebAuthnDevice.KID := NewBase64 [x01; x02; x03; x04];
     WebAuthnDevice.AAGUID := NullUUID.zero;
     WebAuthnDevice.AttestationType := "fido-u2f";
     WebAuthnDevice.Attachment := "cross-platform";
     WebAuthnDevice.Transport := "";
     WebAuthnDevice.SignCount := 3;
     WebAuthnDevice.CloneWarning := true;
     WebAuthnDevice.Discoverable := false;
     WebAuthnDevice.Present := true;
     WebAuthnDevice.Verified := false;
     WebAuthnDevice.BackupEligible := false;
     WebAuthnDevice.BackupState := false;
     WebAuthnDevice.PublicKey := [xa5; x01; x02; x03] |}.

(** [01234567-89ab-cdef-0123-456789abcdef] *)
Definition exampleUUID : UUID :=
  [x01; x23; x45; x67; x89; xab; xcd; xef; x01; x23; x45; x67; x89; xab; xcd; xef].

(** [00000000-1111-2222-3333-444444444444]: the first 32 bits are zero,
    the other 96 are not. *)
Definition lowUUID : UUID :=
  [x00; x00; x00; x00; x11; x11; x22; x22; x33; x33; x44; x44; x44; x44; x44; x44].

Definition passkeyDevice : WebAuthnDevice.t :=
  {| WebAuthnDevice.ID := 8;
     WebAuthnDevice.CreatedAt := 2000;
     WebAuthnDevice.LastUsedAt := {| NullTime.Valid := true; NullTime.Time := 2500 |};
     WebAuthnDevice.RPID := "example.com";
     WebAuthnDevice.Username := "john";
     WebAuthnDevice.Description := "Passkey";
     WebAuthnDevice.KID := NewBase64 [xfb; xef; xbe; x00; x10];
     WebAuthnDevice.AAGUID := {| NullUUID.Valid := true; NullUUID.UUID := exampleUUID |};
     WebAuthnDevice.AttestationType := "packed";
     WebAuthnDevice.Attachment := "platform";
     WebAuthnDevice.Transport := "usb,nfc";
     WebAuthnDevice.SignCount := 41;
     WebAuthnDevice.CloneWarning := false;
     WebAuthnDevice.Discoverable := true;
     WebAuthnDevice.Present := true;
     WebAuthnDevice.Verified := true;
     WebAuthnDevice.BackupEligible := true;
     WebAuthnDevice.BackupState := false;
     WebAuthnDevice.PublicKey := [xa5; x01; x02; x03; x26; x20; x01] |}.

(** A device whose AAGUID is marked valid and is the nil UUID. *)
Definition nilUUIDDevice : WebAuthnDevice.t :=
  WebAuthnDevice.set_AAGUID {| NullUUID.Valid := true; NullUUID.UUID := uuid_Nil |}
    u2fDevice.

Definition twoDeviceUser : WebAuthnUser.t :=
  {| WebAuthnUser.ID := 1;
     WebAuthnUser.RPID := "example.com";
     WebAuthnUser.Username := "john";
     WebAuthnUser.UserID := "5b1c8a3e";
     WebAuthnUser.DisplayName := "John Doe";
     WebAuthnUser.Devices := [passkeyDevice; nilUUIDDevice] |}.

Definition exampleCredential (aaguid : list byte) : Credential.t :=
  {| Credential.ID := [x01; x02; x03; x04];
     Credential.PublicKey := [xa5; x01; x02; x03];
     Credential.AttestationType := "packed";
     Credential.Transport := Some ["usb"; "nfc"];
     Credential.Flags :=
       {| CredentialFlags.UserPresent := true; CredentialFlags.UserVerified := true;
          CredentialFlags.BackupEligible := false; CredentialFlags.BackupState := false |};
     Credential.Authenticator :=
       {| Authenticator.AAGUID := aaguid; Authenticator.SignCount := 0;
          Authenticator.CloneWarning := false; Authenticator.Attachment := "platform" |} |}.



Definition exampleDocument (aaguid : option string) : WebAuthnDeviceData.t :=
  {| WebAuthnDeviceData.ID := 8;
     WebAuthnDeviceData.CreatedAt := 2000;
     WebAuthnDeviceData.LastUsedAt := Some 2500;
     WebAuthnDeviceData.RPID := "example.com";
     WebAuthnDeviceData.Username := "john";
     WebAuthnDeviceData.Description := "Passkey";
     WebAuthnDeviceData.KID := "++++ABA=";
     WebAuthnDeviceData.AAGUID := aaguid;
     WebAuthnDeviceData.AttestationType := "packed";
     WebAuthnDeviceData.Attachment := "platform";
     WebAuthnDeviceData.Transports := Some ["usb"; "nfc"];
     WebAuthnDeviceData.SignCount := 41;
     WebAuthnDeviceData.CloneWarning := false;
     WebAuthnDeviceData.Discoverable := true;
     WebAuthnDeviceData.Present := true;
     WebAuthnDeviceData.Verified := true;
     WebAuthnDeviceData.BackupEligible := true;
     WebAuthnDeviceData.BackupState := false;
     WebAuthnDeviceData.PublicKey := "pQECAyYgAQ==" |}.

(** ** The migration: what it means for a row to be carried over *)


(** [copied r r']: the new row [r'] has, in every column of the [INSERT]
    list, what the engine stores in that column of the value the legacy
    row [r] has under the same name. *)
Definition copied `{E : Sql.Engine} (r r' : Sql.row) : Prop :=
  ∀ cd, cd ∈ drop 1 Sql.webauthn_devices_columns →
    ∃ v v', r !! Sql.col_name cd = Some v ∧
            Sql.store (Sql.col_type cd) v = Some v' ∧
            r' !! Sql.col_name cd = Some v'.

(** [fresh i r']: the row [r'] at position [i] of the device table has
    the [i]-th value of the new sequence as its id and no column but those
    of the device table. *)
Definition fresh (i : nat) (r' : Sql.row) : Prop :=
  r' !! "id" = Some (Sql.Int (1 + Z.of_nat i)) ∧
  ∀ c, c ∉ Sql.col_name <$> Sql.webauthn_devices_columns → r' !! c = None.

(** The database before the migration, the state legacy-dual-table:
    the legacy credentials table is there, the device table is not. *)
Record legacy_dual_table (db : Sql.database) (credentials : Sql.table) : Prop := {
  ldt_credentials : Sql.tables db !! "webauthn_credentials" = Some credentials;
  ldt_devices : Sql.tables db !! "webauthn_devices" = None
}.


(** A row of the legacy credentials table. *)
Definition credential_row (id : Z) (username description kid : string)
    (aaguid : string) (sign_count : Z) (legacy : bool) : Sql.row :=
  list_to_map
    [ ("id", Sql.Int id);
      ("created_at", Sql.Timestamp 1000);
      ("last_used_at", Sql.Null);
      ("rpid", Sql.Text "example.com");
      ("username", Sql.Text username);
      ("description", Sql.Text description);
      ("kid", Sql.Text kid);
      ("public_key", Sql.Bytea [xa5; x01; x02; x03]);
      ("attestation_type", Sql.Text "packed");
      ("attachment", Sql.Text "platform");
      ("transport", Sql.Text "usb,nfc");
      ("aaguid", Sql.Text aaguid);
      ("sign_count", Sql.Int sign_count);
      ("clone_warning", Sql.Boolean false);
      ("discoverable", Sql.Boolean true);
      ("legacy", Sql.Boolean legacy) ].

(** Three legacy credentials, two of them flagged [legacy]. *)
Definition exampleCredentials : Sql.table :=
  {| Sql.tbl_columns := [];
     Sql.tbl_rows :=
       [ credential_row 1 "john" "Primary" "AQIDBA=="
           "01234567-89ab-cdef-0123-456789abcdef" 3 true;
         credential_row 2 "john" "Passkey" "++++ABA="
           "00000000-0000-0000-0000-000000000000" 41 false;
         credential_row 3 "harry" "Primary" "BQYHCA=="
           "00000000-1111-2222-3333-444444444444" 0 true ];
     Sql.tbl_nextval := 4 |}.

Definition exampleDatabase : Sql.database :=
  {| Sql.tables :=
       <["webauthn_credentials" := exampleCredentials]>
         (<["webauthn_users" :=
              {| Sql.tbl_columns := []; Sql.tbl_rows := []; Sql.tbl_nextval := 1 |}]>
            ∅);
     Sql.indexes := ∅ |}.

(** A row of the device table. *)
Definition device_row (id : Z) (username description kid : string)
    (aaguid : string) (sign_count : Z) : Sql.row :=
  list_to_map
    [ ("id", Sql.Int id);
      ("created_at", Sql.Timestamp 1000);
      ("last_used_at", Sql.Null);
      ("rpid", Sql.Text "example.com");
      ("username", Sql.Text username);
      ("description", Sql.Text description);
      ("kid", Sql.Text kid);
      ("public_key", Sql.Bytea [xa5; x01; x02; x03]);
      ("attestation_type", Sql.Text "packed");
      ("transport", Sql.Text "usb,nfc");
      ("aaguid", Sql.Text aaguid);
      ("sign_count", Sql.Int sign_count);
      ("clone_warning", Sql.Boolean false) ].

(** ** The other methods of [webauthn.go] *)

(** [WebAuthnID]: [[]byte(w.UserID)]. *)
Definition WebAuthnID (w : WebAuthnUser.t) : list byte :=
  String.list_byte_of_string (WebAuthnUser.UserID w).

Definition WebAuthnName (w : WebAuthnUser.t) : string := WebAuthnUser.Username w.

Definition WebAuthnDisplayName (w : WebAuthnUser.t) : string :=
  WebAuthnUser.DisplayName w.

Definition WebAuthnIcon (w : WebAuthnUser.t) : string := "".

(** [WebAuthnCredentialDescriptors]. The descriptor type and the method
    [Descriptor] of a credential belong to the ceremony library: [D] is
    the type, [zeroD] its zero value and [Descriptor] the method. *)
Section Descriptors.
Context `{L : Libraries} {D : Type} (zeroD : D) (Descriptor : Credential.t → D).

(** [for i, credential := range credentials]:
    [descriptors[i] = credential.Descriptor()] *)
Fixpoint WebAuthnCredentialDescriptors_loop (i : nat)
    (credentials : list Credential.t) (descriptors : list D) : list D :=
  match credentials with
  | [] => descriptors
  | credential :: rest =>
      WebAuthnCredentialDescriptors_loop (S i) rest
        (<[i := Descriptor credential]> descriptors)
  end.

(** [descriptors = make([]protocol.CredentialDescriptor, len(credentials))],
    then the loop. *)
Definition WebAuthnCredentialDescriptors (w : WebAuthnUser.t) : list D :=
  let credentials := WebAuthnCredentials w in
  WebAuthnCredentialDescriptors_loop 0 credentials
    (replicate (length credentials) zeroD).

End Descriptors.

(** [protocol.CredentialDescriptor] and [Credential.Descriptor] as the
    ceremony library has them, to run [WebAuthnCredentialDescriptors]. *)
Module CredentialDescriptor.
Record t := {
  Type' : string;
  CredentialID : list byte;
  Transport : slice string;
  AttestationType : string
}.
Definition zero : t :=
  {| Type' := ""; CredentialID := []; Transport := None; AttestationType := "" |}.
End CredentialDescriptor.

Definition Credential_Descriptor (c : Credential.t) : CredentialDescriptor.t :=
  {| CredentialDescriptor.Type' := "public-key";
     CredentialDescriptor.CredentialID := Credential.ID c;
     CredentialDescriptor.Transport := Credential.Transport c;
     CredentialDescriptor.AttestationType := Credential.AttestationType c |}.

(** ** More predicates *)

(** The AAGUID of a device is well formed: when it is valid, its [ID()]
    is not zero. *)
Definition AAGUID_ok (nu : NullUUID.t) : Prop :=
  NullUUID.Valid nu = true → UUID_ID (NullUUID.UUID nu) ≠ 0.

(** When [UpdateSignInInfo] panics: the RPID is empty and either the
    configuration is nil, or the device is a [fido-u2f] one and no
    origin is configured. *)
Definition panics (config : option Config.t) (d : WebAuthnDevice.t) : Prop :=
  WebAuthnDevice.RPID d = "" ∧
  match config with
  | None => True
  | Some config =>
      WebAuthnDevice.AttestationType d = attestationTypeFIDOU2F ∧
      Config.RPOrigins config = []
  end.

(** The fields [UnmarshalYAML] has not yet written when it returns an
    error: all but [PublicKey] and [AAGUID]. *)
Definition same_outside_key_and_AAGUID (d d' : WebAuthnDevice.t) : Prop :=
  WebAuthnDevice.ID d' = WebAuthnDevice.ID d ∧
  WebAuthnDevice.CreatedAt d' = WebAuthnDevice.CreatedAt d ∧
  WebAuthnDevice.LastUsedAt d' = WebAuthnDevice.LastUsedAt d ∧
  WebAuthnDevice.RPID d' = WebAuthnDevice.RPID d ∧
  WebAuthnDevice.Username d' = WebAuthnDevice.Username d ∧
  WebAuthnDevice.Description d' = WebAuthnDevice.Description d ∧
  WebAuthnDevice.KID d' = WebAuthnDevice.KID d ∧
  WebAuthnDevice.AttestationType d' = WebAuthnDevice.AttestationType d ∧
  WebAuthnDevice.Attachment d' = WebAuthnDevice.Attachment d ∧
  WebAuthnDevice.Transport d' = WebAuthnDevice.Transport d ∧
  WebAuthnDevice.SignCount d' = WebAuthnDevice.SignCount d ∧
  WebAuthnDevice.CloneWarning d' = WebAuthnDevice.CloneWarning d ∧
  WebAuthnDevice.Discoverable d' = WebAuthnDevice.Discoverable d ∧
  WebAuthnDevice.Present d' = WebAuthnDevice.Present d ∧
  WebAuthnDevice.Verified d' = WebAuthnDevice.Verified d ∧
  WebAuthnDevice.BackupEligible d' = WebAuthnDevice.BackupEligible d ∧
  WebAuthnDevice.BackupState d' = WebAuthnDevice.BackupState d.

(** What [UnmarshalYAML] makes of a receiver and of the device
    [ToDevice] gives for the same document: the device, with the id of
    the receiver, and with the last-used time and the AAGUID of the
    receiver where the device has none. *)
Definition merged (receiver device : WebAuthnDevice.t) : WebAuthnDevice.t :=
  {| WebAuthnDevice.ID := WebAuthnDevice.ID receiver;
     WebAuthnDevice.CreatedAt := WebAuthnDevice.CreatedAt device;
     WebAuthnDevice.LastUsedAt :=
       if NullTime.Valid (WebAuthnDevice.LastUsedAt device)
       then WebAuthnDevice.LastUsedAt device
       else WebAuthnDevice.LastUsedAt receiver;
     WebAuthnDevice.RPID := WebAuthnDevice.RPID device;
     WebAuthnDevice.Username := WebAuthnDevice.Username device;
     WebAuthnDevice.Description := WebAuthnDevice.Description device;
     WebAuthnDevice.KID := WebAuthnDevice.KID device;
     WebAuthnDevice.AAGUID :=
       if NullUUID.Valid (WebAuthnDevice.AAGUID device)
       then WebAuthnDevice.AAGUID device
       else WebAuthnDevice.AAGUID receiver;
     WebAuthnDevice.AttestationType := WebAuthnDevice.AttestationType device;
     WebAuthnDevice.Attachment := WebAuthnDevice.Attachment device;
     WebAuthnDevice.Transport := WebAuthnDevice.Transport device;
     WebAuthnDevice.SignCount := WebAuthnDevice.SignCount device;
     WebAuthnDevice.CloneWarning := WebAuthnDevice.CloneWarning device;
     WebAuthnDevice.Discoverable := WebAuthnDevice.Discoverable device;
     WebAuthnDevice.Present := WebAuthnDevice.Present device;
     WebAuthnDevice.Verified := WebAuthnDevice.Verified device;
     WebAuthnDevice.BackupEligible := WebAuthnDevice.BackupEligible device;
     WebAuthnDevice.BackupState := WebAuthnDevice.BackupState device;
     WebAuthnDevice.PublicKey := WebAuthnDevice.PublicKey device |}.

(** The credential the ceremony library gets back for a credential it
    registered: the credential itself, with the AAGUID as marshalled and
    the transports as a non-nil list. *)
Definition relisted (c : Credential.t) (aaguid : list byte) : Credential.t :=
  {| Credential.ID := Credential.ID c;
     Credential.PublicKey := Credential.PublicKey c;
     Credential.AttestationType := Credential.AttestationType c;
     Credential.Transport := Some (elems (Credential.Transport c));
     Credential.Flags := Credential.Flags c;
     Credential.Authenticator :=
       {| Authenticator.AAGUID := aaguid;
          Authenticator.SignCount :=
            Authenticator.SignCount (Credential.Authenticator c);
          Authenticator.CloneWarning :=
            Authenticator.CloneWarning (Credential.Authenticator c);
          Authenticator.Attachment :=
            Authenticator.Attachment (Credential.Authenticator c) |} |}.

(** The tables the migration writes or drops. *)
Definition migrated_tables : list string :=
  ["webauthn_devices"; "webauthn_credentials"; "webauthn_users"].

(** [accepted r]: the row [r] has every column of the [INSERT] list, with
    a value that the engine stores in the new column, as a value that is
    not [NULL] where the new column is [NOT NULL]. *)
Definition accepted `{E : Sql.Engine} (r : Sql.row) : Prop :=
  ∀ cd, cd ∈ drop 1 Sql.webauthn_devices_columns →
    ∃ v v', r !! Sql.col_name cd = Some v ∧
            Sql.store (Sql.col_type cd) v = Some v' ∧
            (Sql.col_not_null cd = true → v' ≠ Sql.Null).

(** A document with neither last-used time nor AAGUID, a KID that is not
    base64 when [kid] is not, and another public key. *)
Definition bareDocument (kid : string) : WebAuthnDeviceData.t :=
  {| WebAuthnDeviceData.ID := 99;
     WebAuthnDeviceData.CreatedAt := 5000;
     WebAuthnDeviceData.LastUsedAt := None;
     WebAuthnDeviceData.RPID := "example.org";
     WebAuthnDeviceData.Username := "harry";
     WebAuthnDeviceData.Description := "Backup";
     WebAuthnDeviceData.KID := kid;
     WebAuthnDeviceData.AAGUID := None;
     WebAuthnDeviceData.AttestationType := "none";
     WebAuthnDeviceData.Attachment := "cross-platform";
     WebAuthnDeviceData.Transports := Some [];
     WebAuthnDeviceData.SignCount := 0;
     WebAuthnDeviceData.CloneWarning := false;
     WebAuthnDeviceData.Discoverable := false;
     WebAuthnDeviceData.Present := true;
     WebAuthnDeviceData.Verified := false;
     WebAuthnDeviceData.BackupEligible := false;
     WebAuthnDeviceData.BackupState := false;
     WebAuthnDeviceData.PublicKey := "AQID" |}.

(** The example database with one more table and an index on it. *)
Definition exampleDatabaseWithOther : Sql.database :=
  {| Sql.tables :=
       <["totp_configurations" :=
           {| Sql.tbl_columns := [];
              Sql.tbl_rows := [ {["username" := Sql.Text "john"]} ];
              Sql.tbl_nextval := 2 |}]>
         (Sql.tables exampleDatabase);
     Sql.indexes :=
       {["totp_configurations_username_key" :=
           {| Sql.idx_table := "totp_configurations";
              Sql.idx_columns := ["username"] |}]} |}.

(** * Properties *)

(** ** [strings.Split] and [strings.Join] *)

Lemma Split_not_nil s sep : Split s sep ≠ [].
Proof.
  destruct s as [|c rest]; simpl; [done|].
  case_decide; [done|]. by destruct (Split rest sep).
Qed.

Lemma Join_cons_char c seg segs sep :
  Join (String c seg :: segs) sep = String c (Join (seg :: segs) sep).
Proof. by destruct segs. Qed.

(** Joining the segments of a string gives the string back. *)
Lemma Join_Split s : Join (Split s comma) "," = s.
Proof.
  induction s as [|c rest IH]; simpl; [done|].
  case_decide as Hc.
  - subst c. pose proof (Split_not_nil rest comma) as Hne.
    destruct (Split rest comma) as [|seg segs] eqn:E; [done|].
    simpl. by rewrite <- IH.
  - pose proof (Split_not_nil rest comma) as Hne.
    destruct (Split rest comma) as [|seg segs] eqn:E; [done|].
    rewrite Join_cons_char. by rewrite IH.
Qed.

Lemma Split_plain t :
  has_byte comma t = false → Split t comma = [t].
Proof.
  induction t as [|c rest IH]; simpl; [done|].
  intros [Hc Hrest]%orb_false_elim.
  apply bool_decide_eq_false in Hc.
  case_decide; [done|]. by rewrite IH.
Qed.

Lemma Split_app_comma t s :
  has_byte comma t = false →
  Split (t +:+ "," +:+ s) comma = t :: Split s comma.
Proof.
  induction t as [|c rest IH]; simpl.
  - intros _. reflexivity.
  - intros [Hc Hrest]%orb_false_elim.
    apply bool_decide_eq_false in Hc.
    case_decide; [done|]. by rewrite IH.
Qed.

(** Splitting the join of comma-free tags gives the tags back. *)
Lemma Split_Join T :
  T ≠ [] → Forall (fun t => has_byte comma t = false) T →
  Split (Join T ",") comma = T.
Proof.
  induction T as [|a rest IH]; [done|].
  intros _ HT. apply Forall_cons in HT as [Ha Hrest].
  destruct rest as [|b rest'].
  - simpl. by apply Split_plain.
  - change (Join (a :: b :: rest') ",") with (a +:+ "," +:+ Join (b :: rest') ",").
    rewrite Split_app_comma by done. f_equal. by apply IH.
Qed.

Lemma appendTransports_filter l acc :
  appendTransports l acc = acc ++ filter (fun t => t ≠ "") l.
Proof.
  revert acc. induction l as [|t rest IH]; intros acc; simpl.
  - by rewrite app_nil_r.
  - case_decide as Ht.
    + rewrite IH. rewrite filter_cons_False; [done|]. by intros ?.
    + rewrite IH. rewrite filter_cons_True by done. by rewrite <- app_assoc.
Qed.

Lemma decodeTransports_filter s :
  decodeTransports s = filter (fun t => t ≠ "") (Split s comma).
Proof. unfold decodeTransports. by rewrite appendTransports_filter. Qed.



(** ** [UpdateSignInInfo] *)

(** C3. Whatever the device, the configuration and the way the call
    ends, [UpdateSignInInfo] does not turn the clone warning from true to
    false, leaves an RPID that was not empty as it was, and leaves every
    field other than last-used, sign-count and RPID as it was. *)
Theorem UpdateSignInInfo_frame (config : option Config.t) (now : Time) (signCount : Z)
    (d : WebAuthnDevice.t) :
  let d' := (UpdateSignInInfo config now signCount d).1 in
  (WebAuthnDevice.CloneWarning d = true → WebAuthnDevice.CloneWarning d' = true) ∧
  (WebAuthnDevice.RPID d ≠ "" → WebAuthnDevice.RPID d' = WebAuthnDevice.RPID d) ∧
  same_outside_sign_in d d'.
Proof.
  unfold UpdateSignInInfo, same_outside_sign_in. simpl.
  case_decide as Hrpid; simpl.
  - tauto.
  - case_decide; destruct config as [config|]; simpl;
      try destruct (Config.RPOrigins config); simpl; tauto.
Qed.

Lemma UpdateSignInInfo_frame_witness :
  WebAuthnDevice.CloneWarning u2fDevice = true ∧
  WebAuthnDevice.RPID passkeyDevice ≠ "" ∧
  WebAuthnDevice.CloneWarning
    (UpdateSignInInfo (Some exampleConfig) 3000 4 u2fDevice).1 = true ∧
  WebAuthnDevice.RPID (UpdateSignInInfo (Some exampleConfig) 3000 42 passkeyDevice).1
    = "example.com".
Proof.
  split; [reflexivity|]. split; [discriminate|]. split.
  - exact (proj1 (UpdateSignInInfo_frame (Some exampleConfig) 3000 4 u2fDevice)
             eq_refl).
  - apply (proj1 (proj2 (UpdateSignInInfo_frame (Some exampleConfig) 3000 42
                           passkeyDevice))).
    discriminate.
Defined.

(** C4. With a configuration whose list of origins is not empty,
    [UpdateSignInInfo] returns; afterwards last-used is [now] and the sign
    count is the one given; and an RPID that was empty is the first
    configured origin for attestation type [fido-u2f] and the configured
    RPID for any other. *)
Theorem UpdateSignInInfo_effect (config : Config.t) (now : Time) (signCount : Z)
    (d : WebAuthnDevice.t) :
  Config.RPOrigins config ≠ [] →
  ∃ d', UpdateSignInInfo (Some config) now signCount d = (d', Returned) ∧
    WebAuthnDevice.LastUsedAt d' = {| NullTime.Time := now; NullTime.Valid := true |} ∧
    WebAuthnDevice.SignCount d' = signCount ∧
    (WebAuthnDevice.RPID d = "" →
     WebAuthnDevice.AttestationType d = "fido-u2f" →
     Config.RPOrigins config !! 0%nat = Some (WebAuthnDevice.RPID d')) ∧
    (WebAuthnDevice.RPID d = "" →
     WebAuthnDevice.AttestationType d ≠ "fido-u2f" →
     WebAuthnDevice.RPID d' = Config.RPID config).
Proof.
  intros Horigins. unfold UpdateSignInInfo. simpl.
  case_decide as Hrpid; simpl.
  - eexists. split; [reflexivity|]. simpl. tauto.
  - unfold attestationTypeFIDOU2F.
    case_decide as Htype.
    + destruct (Config.RPOrigins config) as [|origin origins] eqn:E; [done|].
      eexists. split; [reflexivity|]. simpl. tauto.
    + eexists. split; [reflexivity|]. simpl. tauto.
Qed.

Lemma UpdateSignInInfo_effect_witness :
  Config.RPOrigins exampleConfig ≠ [] ∧
  ∃ d', UpdateSignInInfo (Some exampleConfig) 3000 4 u2fDevice = (d', Returned) ∧
    WebAuthnDevice.LastUsedAt d' = {| NullTime.Time := 3000; NullTime.Valid := true |} ∧
    WebAuthnDevice.SignCount d' = 4 ∧
    WebAuthnDevice.RPID d' = "https://example.com".
Proof.
  assert (H : Config.RPOrigins exampleConfig ≠ []) by discriminate.
  split; [exact H|].
  destruct (UpdateSignInInfo_effect exampleConfig 3000 4 u2fDevice H)
    as (d' & Hcall & Hlast & Hcount & Hu2f & _).
  exists d'. repeat split; try assumption.
  specialize (Hu2f eq_refl eq_refl). simpl in Hu2f. congruence.
Defined.

(** The second half of the back-fill on a concrete device: any other
    attestation type takes the configured RPID. *)
Example UpdateSignInInfo_packed :
  WebAuthnDevice.RPID
    (UpdateSignInInfo (Some exampleConfig) 3000 42
       (WebAuthnDevice.set_RPID "" passkeyDevice)).1 = "example.com".
Proof. reflexivity. Qed.

(** Without a configured origin the call panics for a [fido-u2f] device
    whose RPID is empty, after it has written last-used and sign-count. *)
Example UpdateSignInInfo_panics :
  UpdateSignInInfo (Some {| Config.RPID := "example.com"; Config.RPOrigins := [] |})
    3000 4 u2fDevice
  = (WebAuthnDevice.set_SignCount 4
       (WebAuthnDevice.set_LastUsedAt
          {| NullTime.Time := 3000; NullTime.Valid := true |} u2fDevice),
     Panicked).
Proof. reflexivity. Qed.

(** ** The document form: [ToData] and [ToDevice] *)

Section Document.
Context `{L : Libraries}.

Lemma ToData_Join_Transports (d : WebAuthnDevice.t) :
  Join (elems (WebAuthnDeviceData.Transports (ToData d))) ","
  = WebAuthnDevice.Transport d.
Proof.
  unfold ToData. case_decide as Ht; simpl.
  - apply Join_Split.
  - done.
Qed.

(** The literal of [ToData] does not name [Discoverable]: the document
    of every device has it false. *)
Lemma ToData_Discoverable (d : WebAuthnDevice.t) :
  WebAuthnDeviceData.Discoverable (ToData d) = false.
Proof. unfold ToData. by case_decide. Qed.

(** C5, as the code has it. For every device, [ToData] gives the nil slice
    of transports for an empty transport string and, for any other, the
    non-nil and non-empty list of the segments between its commas; in
    both cases joining the elements with commas gives the transport
    string back. *)
Theorem ToData_Transports (d : WebAuthnDevice.t) :
  (WebAuthnDevice.Transport d = "" →
   WebAuthnDeviceData.Transports (ToData d) = None) ∧
  (WebAuthnDevice.Transport d ≠ "" →
   ∃ seg segs,
     WebAuthnDeviceData.Transports (ToData d) = Some (seg :: segs) ∧
     seg :: segs = Split (WebAuthnDevice.Transport d) comma) ∧
  Join (elems (WebAuthnDeviceData.Transports (ToData d))) ","
  = WebAuthnDevice.Transport d.
Proof.
  split; [|split].
  - intros Ht. unfold ToData. case_decide; [done|]. reflexivity.
  - intros Ht. unfold ToData. case_decide; [|done]. simpl.
    pose proof (Split_not_nil (WebAuthnDevice.Transport d) comma) as Hne.
    destruct (Split (WebAuthnDevice.Transport d) comma) as [|seg segs]; [done|].
    by exists seg, segs.
  - apply ToData_Join_Transports.
Qed.

Lemma ToDevice_cases (d : WebAuthnDeviceData.t) :
  (import_fails d ∧ ∃ e, ToDevice d = Err e) ∨
  (¬ import_fails d ∧ ∃ device, ToDevice d = Ok device).
Proof.
  unfold ToDevice, import_fails, setAAGUID.
  destruct (base64_DecodeString (WebAuthnDeviceData.PublicKey d))
    as [publicKey [e|]] eqn:Epk; simpl.
  { left. split; [by left | by eexists]. }
  destruct (base64_DecodeString (WebAuthnDeviceData.KID d))
    as [kid [e|]] eqn:Ekid; simpl.
  { left. split; [by right; left|].
    destruct (WebAuthnDeviceData.AAGUID d) as [s|]; [|by eexists].
    destruct (uuid_Parse s) as [aaguid [e'|]]; [by eexists|].
    case_decide; by eexists. }
  destruct (WebAuthnDeviceData.AAGUID d) as [s|] eqn:Eaaguid.
  - destruct (uuid_Parse s) as [aaguid [e|]] eqn:Eparse.
    + left. split; [|by eexists]. right; right. exists s. by rewrite Eparse.
    + right. split.
      * intros [?|[?|(s' & [= <-] & Hs')]]; [done..|]. by rewrite Eparse in Hs'.
      * case_decide; destruct (WebAuthnDeviceData.LastUsedAt d); by eexists.
  - right. split.
    + intros [?|[?|(s' & ? & _)]]; done.
    + destruct (WebAuthnDeviceData.LastUsedAt d); by eexists.
Qed.

(** C6. For every document, [ToDevice] returns an error exactly when the
    public key is not valid base64, or the KID is not valid base64, or an
    AAGUID string is present and does not parse as a UUID; in every other
    case it returns a device. *)
Theorem ToDevice_fails_iff (d : WebAuthnDeviceData.t) :
  ((∃ e, ToDevice d = Err e) ↔ import_fails d) ∧
  (¬ import_fails d → ∃ device, ToDevice d = Ok device).
Proof.
  destruct (ToDevice_cases d) as [[Hf (e & He)]|[Hnf (device & Hd)]].
  - split; [|done]. split; [done|]. intros _. by exists e.
  - split; [|intros _; by exists device].
    split; [|done]. intros [e He]. congruence.
Qed.

(** [ID()] looks at the first four bytes only. *)
Lemma UUID_ID_zero (u : UUID) : take 4 u = replicate 4 x00 → UUID_ID u = 0.
Proof. unfold UUID_ID. by intros ->. Qed.

(** Conversely, on a UUID of at least four bytes, a zero [ID()] means
    that the first four bytes are zero. *)
Lemma UUID_ID_zero_inv (u : UUID) :
  (4 ≤ length u)%nat → UUID_ID u = 0 → take 4 u = replicate 4 x00.
Proof.
  intros Hlen Hid.
  destruct u as [|b0 [|b1 [|b2 [|b3 rest]]]]; simpl in Hlen; try lia.
  unfold UUID_ID, BigEndian_Uint32, u8 in Hid. simpl in Hid.
  apply Z.lor_eq_0_iff in Hid as [Hid H0].
  apply Z.lor_eq_0_iff in Hid as [Hid H1].
  apply Z.lor_eq_0_iff in Hid as [H3 H2].
  apply Z.shiftl_eq_0_iff in H0; [|lia].
  apply Z.shiftl_eq_0_iff in H1; [|lia].
  apply Z.shiftl_eq_0_iff in H2; [|lia].
  assert (Hz : ∀ b : byte, Z.of_N (Byte.to_N b) = 0 → b = x00).
  { intros b Hb. assert (Hn : Byte.to_N b = 0%N) by lia.
    pose proof (Byte.of_to_N b) as Hof. rewrite Hn in Hof. simpl in Hof. congruence. }
  simpl. by rewrite (Hz b0 H0), (Hz b1 H1), (Hz b2 H2), (Hz b3 H3).
Qed.

Lemma setAAGUID_zero_ID (s : string) (u : UUID) (device : WebAuthnDevice.t) :
  uuid_Parse s = (u, None) → UUID_ID u = 0 →
  setAAGUID (Some s) device = Ok device.
Proof.
  intros Hparse Hid. unfold setAAGUID. rewrite Hparse. by case_decide.
Qed.

(** A parsed UUID whose [ID()] is not zero is stored. *)
Lemma setAAGUID_nonzero_ID (s : string) (u : UUID) (device : WebAuthnDevice.t) :
  uuid_Parse s = (u, None) → UUID_ID u ≠ 0 →
  setAAGUID (Some s) device
  = Ok (WebAuthnDevice.set_AAGUID
          {| NullUUID.Valid := true; NullUUID.UUID := u |} device).
Proof.
  intros Hparse Hid. unfold setAAGUID. rewrite Hparse. by case_decide.
Qed.

Lemma ToDevice_zero_ID (d : WebAuthnDeviceData.t) (s : string) (u : UUID) :
  WebAuthnDeviceData.AAGUID d = Some s →
  uuid_Parse s = (u, None) → UUID_ID u = 0 →
  ToDevice d = ToDevice (WebAuthnDeviceData.set_AAGUID None d) ∧
  ∀ device, ToDevice d = Ok device → WebAuthnDevice.AAGUID device = NullUUID.zero.
Proof.
  intros Haaguid Hparse Hid. unfold ToDevice. simpl. rewrite Haaguid.
  destruct (base64_DecodeString (WebAuthnDeviceData.PublicKey d))
    as [publicKey [e|]]; [done|].
  rewrite (setAAGUID_zero_ID _ _ _ Hparse Hid). simpl.
  destruct (base64_DecodeString (WebAuthnDeviceData.KID d))
    as [kid [e|]]; [done|].
  split; [done|].
  destruct (WebAuthnDeviceData.LastUsedAt d); by intros device [= <-].
Qed.

Lemma UnmarshalYAML_zero_ID (o : WebAuthnDeviceData.t) (s : string) (u : UUID)
    (receiver : WebAuthnDevice.t) :
  WebAuthnDeviceData.AAGUID o = Some s →
  uuid_Parse s = (u, None) → UUID_ID u = 0 →
  UnmarshalYAML (o, None) receiver
  = UnmarshalYAML (WebAuthnDeviceData.set_AAGUID None o, None) receiver ∧
  WebAuthnDevice.AAGUID (UnmarshalYAML (o, None) receiver).1
  = WebAuthnDevice.AAGUID receiver.
Proof.
  intros Haaguid Hparse Hid. unfold UnmarshalYAML. simpl. rewrite Haaguid.
  destruct (base64_DecodeString (WebAuthnDeviceData.PublicKey o))
    as [publicKey [e|]]; [done|].
  rewrite (setAAGUID_zero_ID _ _ _ Hparse Hid). simpl.
  by destruct (base64_DecodeString (WebAuthnDeviceData.KID o)) as [kid [e|]].
Qed.

(** C7. A parse that gives the nil UUID (all 128 bits zero) leaves the
    AAGUID absent, in the construction from a registration credential
    and in the import of a document; and a parse that fails during the
    construction leaves the AAGUID absent too, the construction still
    giving its device. *)
Theorem nil_UUID_is_absent :
  (∀ now rpid username description credential,
     let parsed :=
       uuid_Parse (hex_EncodeToString
                     (Authenticator.AAGUID (Credential.Authenticator credential))) in
     parsed = (uuid_Nil, None) ∨ parsed.2 ≠ None →
     absent (WebAuthnDevice.AAGUID
               (NewWebAuthnDeviceFromCredential now rpid username description
                  credential))) ∧
  (∀ d s,
     WebAuthnDeviceData.AAGUID d = Some s →
     uuid_Parse s = (uuid_Nil, None) →
     (base64_DecodeString (WebAuthnDeviceData.PublicKey d)).2 = None →
     (base64_DecodeString (WebAuthnDeviceData.KID d)).2 = None →
     ∃ device, ToDevice d = Ok device ∧ absent (WebAuthnDevice.AAGUID device)).
Proof.
  split.
  - intros now rpid username description credential parsed Hparsed.
    unfold NewWebAuthnDeviceFromCredential. fold parsed.
    destruct Hparsed as [->|Herr].
    + by case_decide.
    + destruct parsed as [aaguid [e|]]; done.
  - intros d s Haaguid Hparse Hpk Hkid.
    destruct (ToDevice_cases d) as [[Hf _]|[_ (device & Hd)]].
    + destruct Hf as [?|[?|(s' & Hs' & Herr)]]; [done..|].
      rewrite Haaguid in Hs'. injection Hs' as <-. by rewrite Hparse in Herr.
    + exists device. split; [done|].
      destruct (ToDevice_zero_ID d s uuid_Nil Haaguid Hparse eq_refl) as [_ Habs].
      by rewrite (Habs device Hd).
Qed.

(** C10, as the code has it. A parsed UUID whose first 32 bits are zero
    is not stored, whatever its other 96 bits: the construction from a
    registration credential leaves the AAGUID absent; the import of a
    document does what it does for a document without AAGUID, and a
    device it gives has no AAGUID; YAML unmarshalling does what it does
    for a document without AAGUID and leaves the receiver's AAGUID as it
    was: absent for a fresh receiver, and the AAGUID it had for a
    receiver that had one. *)
Theorem zero_ID_is_absent (u : UUID) :
  take 4 u = replicate 4 x00 →
  (∀ now rpid username description credential,
     uuid_Parse (hex_EncodeToString
                   (Authenticator.AAGUID (Credential.Authenticator credential)))
     = (u, None) →
     absent (WebAuthnDevice.AAGUID
               (NewWebAuthnDeviceFromCredential now rpid username description
                  credential))) ∧
  (∀ d s,
     WebAuthnDeviceData.AAGUID d = Some s → uuid_Parse s = (u, None) →
     ToDevice d = ToDevice (WebAuthnDeviceData.set_AAGUID None d) ∧
     ∀ device, ToDevice d = Ok device → absent (WebAuthnDevice.AAGUID device)) ∧
  (∀ o s receiver,
     WebAuthnDeviceData.AAGUID o = Some s → uuid_Parse s = (u, None) →
     UnmarshalYAML (o, None) receiver
     = UnmarshalYAML (WebAuthnDeviceData.set_AAGUID None o, None) receiver ∧
     WebAuthnDevice.AAGUID (UnmarshalYAML (o, None) receiver).1
     = WebAuthnDevice.AAGUID receiver ∧
     absent (WebAuthnDevice.AAGUID (UnmarshalYAML (o, None) WebAuthnDevice.zero).1)).
Proof.
  intros Hu%UUID_ID_zero. split; [|split].
  - intros now rpid username description credential Hparse.
    unfold NewWebAuthnDeviceFromCredential. rewrite Hparse. by case_decide.
  - intros d s Haaguid Hparse.
    destruct (ToDevice_zero_ID d s u Haaguid Hparse Hu) as [Heq Habs].
    split; [done|]. intros device Hd. by rewrite (Habs device Hd).
  - intros o s receiver Haaguid Hparse.
    destruct (UnmarshalYAML_zero_ID o s u receiver Haaguid Hparse Hu) as [Heq Hkeep].
    split; [done|]. split; [done|].
    destruct (UnmarshalYAML_zero_ID o s u WebAuthnDevice.zero Haaguid Hparse Hu)
      as [_ ->].
    done.
Qed.

(** C2, as the code has it. For every device whose public key, KID and
    AAGUID the codecs give back, [ToDevice (ToData d)] is [roundTrip d]:
    every field of [d] but the surrogate id comes back, the AAGUID and
    the last-used time in normal form, except the discoverable flag,
    which comes back false whatever it was. *)
Theorem ToDevice_ToData (d : WebAuthnDevice.t) :
  base64_DecodeString (base64_EncodeToString (WebAuthnDevice.PublicKey d))
  = (WebAuthnDevice.PublicKey d, None) →
  base64_DecodeString (Base64_String (WebAuthnDevice.KID d))
  = (Base64_Bytes (WebAuthnDevice.KID d), None) →
  (NullUUID.Valid (WebAuthnDevice.AAGUID d) = true →
   uuid_Parse (UUID_String (NullUUID.UUID (WebAuthnDevice.AAGUID d)))
   = (NullUUID.UUID (WebAuthnDevice.AAGUID d), None)) →
  ToDevice (ToData d) = Ok (roundTrip d).
Proof.
  intros Hpk Hkid Haaguid.
  pose proof (ToData_Join_Transports d) as Htransport.
  unfold ToDevice. rewrite Htransport. clear Htransport.
  assert (Hfields : ∀ o, (if decide (WebAuthnDevice.Transport d ≠ "")
            then WebAuthnDeviceData.set_Transports
                   (Some (Split (WebAuthnDevice.Transport d) comma)) o
            else o) = WebAuthnDeviceData.set_Transports
                        (if decide (WebAuthnDevice.Transport d ≠ "")
                         then Some (Split (WebAuthnDevice.Transport d) comma)
                         else WebAuthnDeviceData.Transports o) o).
  { intros o. case_decide; [done|]. by destruct o. }
  unfold ToData. rewrite Hfields. clear Hfields. simpl.
  rewrite Hpk, Hkid. unfold roundTrip, setAAGUID, DataValueAAGUID, DataValueLastUsedAt,
    normalAAGUID, normalTime, NewBase64, Base64_Bytes.
  destruct d as [id createdAt [lastUsed lastValid] rpid username description [kid]
                 [uuid valid] attestationType attachment transport signCount
                 cloneWarning discoverable present verified backupEligible
                 backupState publicKey].
  simpl in *.
  destruct valid; simpl.
  - rewrite (Haaguid eq_refl).
    case_decide; destruct lastValid; reflexivity.
  - destruct lastValid; reflexivity.
Qed.

End Document.

(** ** [WebAuthnCredentials] *)

Section Credentials.
Context `{L : Libraries}.

(** The loop writes the slot of every device whose AAGUID is marshalled
    and leaves every other slot as it found it. *)
Lemma WebAuthnCredentials_loop_slots (devices : list WebAuthnDevice.t) :
  ∀ (i : nat) (credentials : list Credential.t),
    length credentials = (i + length devices)%nat →
    length (WebAuthnCredentials_loop i devices credentials) = length credentials ∧
    (∀ j, (j < i)%nat →
       WebAuthnCredentials_loop i devices credentials !! j = credentials !! j) ∧
    (∀ j device, devices !! j = Some device →
       WebAuthnCredentials_loop i devices credentials !! (i + j)%nat
       = match NullUUID_MarshalBinary (WebAuthnDevice.AAGUID device) with
         | (aaguid, None) => Some (deviceCredential device aaguid)
         | (_, Some _) => credentials !! (i + j)%nat
         end).
Proof.
  induction devices as [|device rest IH]; intros i credentials Hlen; simpl.
  - split; [done|]. split; [done|]. intros j device' Hj. done.
  - simpl in Hlen.
    destruct (NullUUID_MarshalBinary (WebAuthnDevice.AAGUID device))
      as [aaguid [e|]] eqn:Emarshal.
    + destruct (IH (S i) credentials) as (Hl & Hbelow & Hat); [lia|].
      split; [done|]. split.
      * intros j Hj. apply Hbelow. lia.
      * intros [|j] device' Hj; simpl in Hj.
        -- injection Hj as <-. rewrite Emarshal, Nat.add_0_r. apply Hbelow. lia.
        -- replace (i + S j)%nat with (S i + j)%nat by lia. by apply Hat.
    + destruct (IH (S i) (<[i := deviceCredential device aaguid]> credentials))
        as (Hl & Hbelow & Hat); [rewrite length_insert; lia|].
      rewrite length_insert in Hl.
      split; [done|]. split.
      * intros j Hj. rewrite Hbelow by lia. apply list_lookup_insert_ne. lia.
      * intros [|j] device' Hj; simpl in Hj.
        -- injection Hj as <-. rewrite Emarshal, Nat.add_0_r.
           rewrite Hbelow by lia. apply list_lookup_insert_eq. lia.
        -- replace (i + S j)%nat with (S i + j)%nat by lia.
           rewrite (Hat j device' Hj).
           destruct (NullUUID_MarshalBinary (WebAuthnDevice.AAGUID device'))
             as [aaguid' [e'|]]; [|done].
           apply list_lookup_insert_ne. lia.
Qed.


End Credentials.

(** The [MarshalBinary] of the uuid package never fails: it gives the 16
    bytes of a valid AAGUID and no bytes for an absent one. *)
Lemma NullUUID_MarshalBinary_goLibraries (nu : NullUUID.t) :
  NullUUID_MarshalBinary (Libraries := goLibraries) nu
  = (if NullUUID.Valid nu then NullUUID.UUID nu else [], None).
Proof.
  simpl. unfold Reference.NullUUID_MarshalBinary.
  by destruct (NullUUID.Valid nu).
Qed.



(** With the uuid package the loop writes the slot of every device, also
    of a device whose AAGUID is marked valid and is the nil UUID. *)
Example WebAuthnCredentials_twoDeviceUser :
  WebAuthnCredentials (L := goLibraries) twoDeviceUser
  = [ deviceCredential passkeyDevice exampleUUID;
      deviceCredential nilUUIDDevice uuid_Nil ].
Proof. reflexivity. Qed.

Lemma WebAuthnCredentials_goLibraries (w : WebAuthnUser.t) (i : nat)
    (device : WebAuthnDevice.t) :
  WebAuthnUser.Devices w !! i = Some device →
  ∃ aaguid,
    WebAuthnCredentials (L := goLibraries) w !! i
    = Some (deviceCredential device aaguid).
Proof.
  intros Hi. unfold WebAuthnCredentials.
  destruct (WebAuthnCredentials_loop_slots (L := goLibraries)
              (WebAuthnUser.Devices w) 0
              (replicate (length (WebAuthnUser.Devices w)) Credential.zero))
    as (_ & _ & Hat).
  { by rewrite length_replicate. }
  specialize (Hat i device Hi). simpl in Hat. rewrite Hat.
  unfold Reference.NullUUID_MarshalBinary.
  destruct (NullUUID.Valid (WebAuthnDevice.AAGUID device)); by eexists.
Qed.

(** ** The document form on concrete values *)

(** C5, as stated, fails: the transports of the document of a device
    whose transport string is empty are the nil slice, not an empty
    list. *)
Lemma ToData_empty_transport_is_nil :
  WebAuthnDevice.Transport u2fDevice = "" ∧
  WebAuthnDeviceData.Transports (ToData (L := goLibraries) u2fDevice) = None ∧
  WebAuthnDeviceData.Transports (ToData (L := goLibraries) u2fDevice) ≠ Some [].
Proof. split; [reflexivity|]. split; [reflexivity|discriminate]. Qed.

Lemma ToData_Transports_witness :
  WebAuthnDevice.Transport u2fDevice = "" ∧
  WebAuthnDeviceData.Transports (ToData (L := goLibraries) u2fDevice) = None ∧
  WebAuthnDevice.Transport passkeyDevice ≠ "" ∧
  ∃ seg segs,
    WebAuthnDeviceData.Transports (ToData (L := goLibraries) passkeyDevice)
    = Some (seg :: segs) ∧
    seg :: segs = ["usb"; "nfc"].
Proof.
  split; [reflexivity|]. split.
  - exact (proj1 (ToData_Transports (L := goLibraries) u2fDevice) eq_refl).
  - assert (H : WebAuthnDevice.Transport passkeyDevice ≠ "") by discriminate.
    split; [exact H|].
    exact (proj1 (proj2 (ToData_Transports (L := goLibraries) passkeyDevice)) H).
Defined.

Lemma exampleDocument_imports aaguid :
  (∀ s, aaguid = Some s → (uuid_Parse (Libraries := goLibraries) s).2 = None) →
  ¬ import_fails (L := goLibraries) (exampleDocument aaguid).
Proof.
  intros Haaguid [Hpk|[Hkid|(s & Hs & Hparse)]].
  - by vm_compute in Hpk.
  - by vm_compute in Hkid.
  - simpl in Hs. by rewrite (Haaguid s Hs) in Hparse.
Qed.

Lemma ToDevice_fails_iff_witness :
  ¬ import_fails (L := goLibraries)
      (exampleDocument (Some "01234567-89ab-cdef-0123-456789abcdef")) ∧
  ∃ device,
    ToDevice (L := goLibraries)
      (exampleDocument (Some "01234567-89ab-cdef-0123-456789abcdef"))
    = Ok device.
Proof.
  assert (H : ¬ import_fails (L := goLibraries)
                (exampleDocument (Some "01234567-89ab-cdef-0123-456789abcdef"))).
  { apply exampleDocument_imports. by intros s [= <-]. }
  split; [exact H|].
  exact (proj2 (ToDevice_fails_iff (L := goLibraries) _) H).
Defined.

(** The imported device of that document, and a failure. *)
Example ToDevice_exampleDocument :
  ToDevice (L := goLibraries)
    (exampleDocument (Some "01234567-89ab-cdef-0123-456789abcdef"))
  = Ok {| WebAuthnDevice.ID := 0;
          WebAuthnDevice.CreatedAt := 2000;
          WebAuthnDevice.LastUsedAt :=
            {| NullTime.Valid := true; NullTime.Time := 2500 |};
          WebAuthnDevice.RPID := "example.com";
          WebAuthnDevice.Username := "john";
          WebAuthnDevice.Description := "Passkey";
          WebAuthnDevice.KID := NewBase64 [xfb; xef; xbe; x00; x10];
          WebAuthnDevice.AAGUID :=
            {| NullUUID.Valid := true; NullUUID.UUID := exampleUUID |};
          WebAuthnDevice.AttestationType := "packed";
          WebAuthnDevice.Attachment := "platform";
          WebAuthnDevice.Transport := "usb,nfc";
          WebAuthnDevice.SignCount := 41;
          WebAuthnDevice.CloneWarning := false;
          WebAuthnDevice.Discoverable := true;
          WebAuthnDevice.Present := true;
          WebAuthnDevice.Verified := true;
          WebAuthnDevice.BackupEligible := true;
          WebAuthnDevice.BackupState := false;
          WebAuthnDevice.PublicKey := [xa5; x01; x02; x03; x26; x20; x01] |}.
Proof. vm_compute. reflexivity. Qed.

Example ToDevice_bad_AAGUID :
  ToDevice (L := goLibraries) (exampleDocument (Some "not-a-uuid"))
  = Err "invalid UUID length: 10".
Proof. vm_compute. reflexivity. Qed.

Lemma nil_UUID_is_absent_witness :
  uuid_Parse (Libraries := goLibraries)
    (hex_EncodeToString (Libraries := goLibraries) (replicate 16 x00))
  = (uuid_Nil, None) ∧
  absent (WebAuthnDevice.AAGUID
            (NewWebAuthnDeviceFromCredential (L := goLibraries) 1000
               "example.com" "john" "Primary"
               (exampleCredential (replicate 16 x00)))) ∧
  (uuid_Parse (Libraries := goLibraries)
     (hex_EncodeToString (Libraries := goLibraries) [x01; x02])).2 ≠ None ∧
  absent (WebAuthnDevice.AAGUID
            (NewWebAuthnDeviceFromCredential (L := goLibraries) 1000
               "example.com" "john" "Primary" (exampleCredential [x01; x02]))) ∧
  uuid_Parse (Libraries := goLibraries) "00000000-0000-0000-0000-000000000000"
  = (uuid_Nil, None) ∧
  ∃ device,
    ToDevice (L := goLibraries)
      (exampleDocument (Some "00000000-0000-0000-0000-000000000000"))
    = Ok device ∧
    absent (WebAuthnDevice.AAGUID device).
Proof.
  destruct (nil_UUID_is_absent (L := goLibraries)) as [Hnew Himport].
  assert (H1 : uuid_Parse (Libraries := goLibraries)
                 (hex_EncodeToString (Libraries := goLibraries) (replicate 16 x00))
               = (uuid_Nil, None)) by (vm_compute; reflexivity).
  assert (H2 : (uuid_Parse (Libraries := goLibraries)
                  (hex_EncodeToString (Libraries := goLibraries) [x01; x02])).2
               ≠ None) by (vm_compute; discriminate).
  assert (H3 : uuid_Parse (Libraries := goLibraries)
                 "00000000-0000-0000-0000-000000000000" = (uuid_Nil, None))
    by (vm_compute; reflexivity).
  split; [exact H1|]. split.
  { exact (Hnew 1000 "example.com" "john" "Primary"
             (exampleCredential (replicate 16 x00)) (or_introl H1)). }
  split; [exact H2|]. split.
  { exact (Hnew 1000 "example.com" "john" "Primary"
             (exampleCredential [x01; x02]) (or_intror H2)). }
  split; [exact H3|].
  apply (Himport (exampleDocument (Some "00000000-0000-0000-0000-000000000000"))
           "00000000-0000-0000-0000-000000000000" eq_refl H3).
  - vm_compute; reflexivity.
  - vm_compute; reflexivity.
Defined.

Lemma zero_ID_is_absent_witness :
  take 4 lowUUID = replicate 4 x00 ∧
  lowUUID ≠ uuid_Nil ∧
  uuid_Parse (Libraries := goLibraries)
    (hex_EncodeToString (Libraries := goLibraries) lowUUID) = (lowUUID, None) ∧
  absent (WebAuthnDevice.AAGUID
            (NewWebAuthnDeviceFromCredential (L := goLibraries) 1000
               "example.com" "john" "Primary" (exampleCredential lowUUID))) ∧
  uuid_Parse (Libraries := goLibraries) "00000000-1111-2222-3333-444444444444"
  = (lowUUID, None) ∧
  (∀ device,
     ToDevice (L := goLibraries)
       (exampleDocument (Some "00000000-1111-2222-3333-444444444444"))
     = Ok device → absent (WebAuthnDevice.AAGUID device)) ∧
  absent (WebAuthnDevice.AAGUID
            (UnmarshalYAML (L := goLibraries)
               (exampleDocument (Some "00000000-1111-2222-3333-444444444444"), None)
               WebAuthnDevice.zero).1).
Proof.
  assert (H0 : take 4 lowUUID = replicate 4 x00) by reflexivity.
  destruct (zero_ID_is_absent (L := goLibraries) lowUUID H0)
    as (Hnew & Himport & Hyaml).
  assert (H1 : uuid_Parse (Libraries := goLibraries)
                 (hex_EncodeToString (Libraries := goLibraries) lowUUID)
               = (lowUUID, None)) by (vm_compute; reflexivity).
  assert (H2 : uuid_Parse (Libraries := goLibraries)
                 "00000000-1111-2222-3333-444444444444" = (lowUUID, None))
    by (vm_compute; reflexivity).
  split; [exact H0|]. split; [discriminate|]. split; [exact H1|]. split.
  { exact (Hnew 1000 "example.com" "john" "Primary" (exampleCredential lowUUID) H1). }
  split; [exact H2|]. split.
  { exact (proj2 (Himport
             (exampleDocument (Some "00000000-1111-2222-3333-444444444444"))
             "00000000-1111-2222-3333-444444444444" eq_refl H2)). }
  exact (proj2 (proj2 (Hyaml
           (exampleDocument (Some "00000000-1111-2222-3333-444444444444"))
           "00000000-1111-2222-3333-444444444444" WebAuthnDevice.zero eq_refl H2))).
Defined.

(** YAML unmarshalling of the document with that UUID into a device
    that has an AAGUID: the UUID is parsed, its first 32 bits are zero,
    there is no error, and the device keeps the AAGUID it had; it is not
    absent. *)
Lemma UnmarshalYAML_keeps_receiver_AAGUID :
  take 4 lowUUID = replicate 4 x00 ∧
  uuid_Parse (Libraries := goLibraries) "00000000-1111-2222-3333-444444444444"
  = (lowUUID, None) ∧
  (UnmarshalYAML (L := goLibraries)
     (exampleDocument (Some "00000000-1111-2222-3333-444444444444"), None)
     passkeyDevice).2 = None ∧
  WebAuthnDevice.AAGUID
    (UnmarshalYAML (L := goLibraries)
       (exampleDocument (Some "00000000-1111-2222-3333-444444444444"), None)
       passkeyDevice).1
  = {| NullUUID.Valid := true; NullUUID.UUID := exampleUUID |} ∧
  ¬ absent (WebAuthnDevice.AAGUID
              (UnmarshalYAML (L := goLibraries)
                 (exampleDocument (Some "00000000-1111-2222-3333-444444444444"),
                  None)
                 passkeyDevice).1).
Proof.
  split; [reflexivity|]. split; [vm_compute; reflexivity|].
  split; [vm_compute; reflexivity|]. split; [vm_compute; reflexivity|].
  unfold absent. vm_compute. discriminate.
Qed.

(** The import of that document does give a device, without AAGUID. *)
Example ToDevice_lowUUID :
  ∃ device,
    ToDevice (L := goLibraries)
      (exampleDocument (Some "00000000-1111-2222-3333-444444444444"))
    = Ok device ∧
    WebAuthnDevice.AAGUID device = NullUUID.zero.
Proof. eexists. split; [vm_compute; reflexivity|reflexivity]. Qed.

Lemma ToDevice_ToData_witness :
  base64_DecodeString (Libraries := goLibraries)
    (base64_EncodeToString (Libraries := goLibraries)
       (WebAuthnDevice.PublicKey passkeyDevice))
  = (WebAuthnDevice.PublicKey passkeyDevice, None) ∧
  WebAuthnDevice.Discoverable passkeyDevice = true ∧
  ∃ device,
    ToDevice (L := goLibraries) (ToData (L := goLibraries) passkeyDevice)
    = Ok device ∧
    WebAuthnDevice.Discoverable device = false.
Proof.
  assert (Hpk : base64_DecodeString (Libraries := goLibraries)
                  (base64_EncodeToString (Libraries := goLibraries)
                     (WebAuthnDevice.PublicKey passkeyDevice))
                = (WebAuthnDevice.PublicKey passkeyDevice, None))
    by (vm_compute; reflexivity).
  split; [exact Hpk|]. split; [reflexivity|].
  exists (roundTrip passkeyDevice). split; [|reflexivity].
  apply (ToDevice_ToData (L := goLibraries) passkeyDevice Hpk).
  - vm_compute; reflexivity.
  - intros _. vm_compute; reflexivity.
Defined.

(** The round trip of [passkeyDevice]: only the surrogate id and the
    discoverable flag differ. *)
Example ToDevice_ToData_passkeyDevice :
  ToDevice (L := goLibraries) (ToData (L := goLibraries) passkeyDevice)
  = Ok {| WebAuthnDevice.ID := 0;
          WebAuthnDevice.CreatedAt := 2000;
          WebAuthnDevice.LastUsedAt :=
            {| NullTime.Valid := true; NullTime.Time := 2500 |};
          WebAuthnDevice.RPID := "example.com";
          WebAuthnDevice.Username := "john";
          WebAuthnDevice.Description := "Passkey";
          WebAuthnDevice.KID := NewBase64 [xfb; xef; xbe; x00; x10];
          WebAuthnDevice.AAGUID :=
            {| NullUUID.Valid := true; NullUUID.UUID := exampleUUID |};
          WebAuthnDevice.AttestationType := "packed";
          WebAuthnDevice.Attachment := "platform";
          WebAuthnDevice.Transport := "usb,nfc";
          WebAuthnDevice.SignCount := 41;
          WebAuthnDevice.CloneWarning := false;
          WebAuthnDevice.Discoverable := false;
          WebAuthnDevice.Present := true;
          WebAuthnDevice.Verified := true;
          WebAuthnDevice.BackupEligible := true;
          WebAuthnDevice.BackupState := false;
          WebAuthnDevice.PublicKey := [xa5; x01; x02; x03; x26; x20; x01] |}.
Proof. vm_compute. reflexivity. Qed.

(** ** The migration *)

Section Migration.
Import Sql.
Context `{E : Engine}.

Local Ltac by_decide := apply (bool_decide_unpack _); vm_compute; exact I.


(** The copied columns are the columns of the new table but [id]. *)
Lemma copied_columns_names :
  copied_columns = col_name <$> drop 1 webauthn_devices_columns.
Proof. reflexivity. Qed.

Lemma assigned_same (c : string) (cols : list string) (r : row) :
  c ∈ cols → assigned c cols cols r = Some (r !! c).
Proof.
  induction cols as [|t cols IH]; [by intros ?%elem_of_nil|].
  intros Hc. simpl. case_decide as Ht; [by subst t|].
  apply IH. apply elem_of_cons in Hc as [->|?]; done.
Qed.

(** The value of a copied column of the new row is what the engine
    stores of the value the legacy row has in that column, and it is not
    [NULL] where the column is [NOT NULL]. *)
Lemma new_value_stored (n : Z) (r : row) (c : column) (v' : value) :
  col_name c ∈ copied_columns →
  new_value n copied_columns copied_columns r c = Some v' →
  ∃ v, r !! col_name c = Some v ∧ store (col_type c) v = Some v' ∧
       (col_not_null c = true → v' ≠ Null).
Proof.
  intros Hc. unfold new_value. rewrite (assigned_same _ _ _ Hc).
  destruct (r !! col_name c) as [v0|]; simpl; [|done].
  destruct (store (col_type c) v0) as [v1|] eqn:Hstore; simpl; [|done].
  destruct (col_not_null c) eqn:Hnn; simpl.
  - case_bool_decide as Hnull; [done|]. intros [= <-]. by exists v0.
  - intros [= <-]. by exists v0.
Qed.







Lemma collide_sym (cols : list string) (a b : row) :
  collide cols a b = collide cols b a.
Proof.
  unfold collide. destruct (decide (key cols a = key cols b)) as [Heq|Hne].
  - by rewrite Heq.
  - rewrite (bool_decide_eq_false_2 (key cols a = key cols b)) by done.
    by rewrite (bool_decide_eq_false_2 (key cols b = key cols a)).
Qed.



Lemma insert_rows_columns (idxs : list (list string)) (tcols scols : list string)
    (rs : list row) (t t' : table) :
  insert_rows idxs tcols scols t rs = Some t' → tbl_columns t' = tbl_columns t.
Proof.
  revert t. induction rs as [|r rs IH]; intros t; simpl.
  - by intros [= <-].
  - unfold insert_one.
    destruct (new_row _ _ _ _ _) as [r'|]; simpl; [|done].
    destruct (forallb _ _); [|done]. intros Ht'. by rewrite (IH _ Ht').
Qed.

Lemma elem_of_indexes_of (cols : list string) (tbl : string) (db : database) :
  cols ∈ indexes_of tbl db ↔
  ∃ name idx, indexes db !! name = Some idx ∧ idx_table idx = tbl ∧
              idx_columns idx = cols.
Proof.
  unfold indexes_of. rewrite list_elem_of_fmap. split.
  - intros (idx & -> & Hidx). apply list_elem_of_fmap in Hidx as ([name idx'] & -> & Hin).
    apply elem_of_map_to_list in Hin. apply map_lookup_filter_Some in Hin as [Hl Ht].
    by exists name, idx'.
  - intros (name & idx & Hl & Ht & Hc). exists idx. split; [done|].
    apply list_elem_of_fmap. exists (name, idx). split; [done|].
    apply elem_of_map_to_list. by apply map_lookup_filter_Some.
Qed.

(** *** The script runs to its end *)


(** *** What the script leaves when it has run to its end *)

Lemma select_where_Some (rows sel : list row) :
  select_where "legacy" rows = Some sel →
  sel = List.filter (fun r => bool_decide (r !! "legacy" = Some (Boolean true))) rows.
Proof.
  revert sel. induction rows as [|r rest IH]; intros sel; simpl.
  - by intros [= <-].
  - unfold is_true. destruct (r !! "legacy") as [v|]; simpl; [|done].
    destruct (select_where "legacy" rest) as [sel'|]; simpl; [|done].
    intros [= <-]. rewrite (IH sel' eq_refl).
    destruct (decide (v = Boolean true)) as [->|Hne].
    + by rewrite !bool_decide_eq_true_2.
    + rewrite (bool_decide_eq_false_2 (v = Boolean true)) by done.
      rewrite bool_decide_eq_false_2; [done|]. by intros [= ?].
Qed.

Lemma new_row_Some (n : Z) (tcols scols : list string) (r r' : row)
    (cols : list column) :
  NoDup (col_name <$> cols) →
  new_row n tcols scols r cols = Some r' →
  ∀ c, c ∈ cols → new_value n tcols scols r c = r' !! col_name c ∧
                  is_Some (r' !! col_name c).
Proof.
  revert r'. induction cols as [|c cols IH]; intros r' Hnd; simpl.
  - by intros _ c ?%elem_of_nil.
  - rewrite fmap_cons in Hnd. apply NoDup_cons in Hnd as [Hc Hnd].
    destruct (new_value n tcols scols r c) as [v|] eqn:Hv; simpl; [|done].
    destruct (new_row n tcols scols r cols) as [r0|] eqn:Hr0; simpl; [|done].
    intros [= <-] c' [->|Hc']%elem_of_cons.
    + rewrite lookup_insert_eq. by rewrite Hv.
    + rewrite lookup_insert_ne; [by apply IH|].
      intros Heq. apply Hc. rewrite Heq. by apply list_elem_of_fmap_2.
Qed.

(** A row that was built has, in the copied columns, what the engine
    stores of the values of its legacy row. *)
Lemma new_row_copied (n : Z) (r r' : row) :
  new_row n copied_columns copied_columns r webauthn_devices_columns = Some r' →
  copied r r'.
Proof.
  intros Hr' cd Hcd.
  destruct (new_row_Some n copied_columns copied_columns r r'
              webauthn_devices_columns) with (c := cd)
    as [Hv [v' Hsome]]; [by_decide|done|by apply list_elem_of_further|].
  rewrite Hsome in Hv.
  destruct (new_value_stored n r cd v') as (v & Hr & Hstore & _); [|done|].
  { rewrite copied_columns_names. by apply list_elem_of_fmap_2. }
  by exists v, v'.
Qed.

Lemma new_row_columns (n : Z) (tcols scols : list string) (r r' : row)
    (cols : list column) (c : string) :
  new_row n tcols scols r cols = Some r' →
  c ∉ col_name <$> cols → r' !! c = None.
Proof.
  revert r'. induction cols as [|cd cols IH]; intros r'; simpl.
  - by intros [= <-] _.
  - destruct (new_value n tcols scols r cd) as [v|]; simpl; [|done].
    destruct (new_row n tcols scols r cols) as [r0|]; simpl; [|done].
    intros [= <-] Hc. simpl in Hc.
    apply not_elem_of_cons in Hc as [Hne Hc].
    rewrite lookup_insert_ne by done. by apply IH.
Qed.

Lemma new_row_id (n : Z) (r r' : row) :
  new_row n copied_columns copied_columns r webauthn_devices_columns = Some r' →
  r' !! "id" = Some (Int n).
Proof.
  intros Hr'.
  destruct (new_row_Some n copied_columns copied_columns r r'
              webauthn_devices_columns) with
    (c := {| col_name := "id"; col_type := SERIAL; col_not_null := true |})
    as [Hv [v Hsome]]; [by_decide|done|apply list_elem_of_here|].
  clear Hr'. simpl in Hv, Hsome. rewrite Hsome in Hv |- *. rewrite <- Hv.
  unfold new_value in *. simpl in *.
  by destruct (decide (n ≤ serial_max)).
Qed.

Lemma insert_rows_ids (idxs : list (list string)) (rs : list row) :
  ∀ t t' : table,
    tbl_columns t = webauthn_devices_columns →
    insert_rows idxs copied_columns copied_columns t rs = Some t' →
    ∃ news,
      tbl_rows t' = tbl_rows t ++ news ∧
      ∀ (i : nat) r', news !! i = Some r' →
        r' !! "id" = Some (Int (tbl_nextval t + Z.of_nat i)) ∧
        ∀ c, c ∉ col_name <$> webauthn_devices_columns → r' !! c = None.
Proof.
  induction rs as [|r rs IH]; intros t t' Hcols; simpl.
  - intros [= <-]. exists []. by rewrite app_nil_r.
  - unfold insert_one. rewrite Hcols.
    destruct (new_row _ _ _ _ _) as [r'|] eqn:Hr'; simpl; [|done].
    destruct (forallb _ _); [|done]. intros Ht'.
    apply IH in Ht' as (news & Hrows & Hids); [|done]. simpl in Hrows, Hids.
    exists (r' :: news). split; [by rewrite Hrows, <- app_assoc|].
    intros [|i] r0 Hi; simpl in Hi.
    + injection Hi as <-. rewrite Z.add_0_r. split; [by eapply new_row_id|].
      intros c Hc. by eapply new_row_columns.
    + destruct (Hids i r0 Hi) as [Hid Hnone]. split; [|done].
      rewrite Hid. do 2 f_equal. lia.
Qed.

Lemma insert_rows_Some (idxs : list (list string)) (rs : list row) :
  ∀ t t' : table,
    tbl_columns t = webauthn_devices_columns →
    insert_rows idxs copied_columns copied_columns t rs = Some t' →
    ∃ news, tbl_rows t' = tbl_rows t ++ news ∧ Forall2 copied rs news.
Proof.
  induction rs as [|r rs IH]; intros t t' Hcols; simpl.
  - intros [= <-]. exists []. by rewrite app_nil_r.
  - unfold insert_one. rewrite Hcols.
    destruct (new_row _ _ _ _ _) as [r'|] eqn:Hr'; simpl; [|done].
    destruct (forallb _ _); [|done]. intros Ht'.
    apply IH in Ht' as (news & Hrows & Hall); [|done]. simpl in Hrows.
    exists (r' :: news). split.
    + by rewrite Hrows, <- app_assoc.
    + constructor; [|done]. by eapply new_row_copied.
Qed.

Lemma migration_result (db db' : database) (credentials : table) :
  legacy_dual_table db credentials → migration db = Some db' →
  ∃ devices,
    tables db' !! "webauthn_devices" = Some devices ∧
    Forall2 copied (legacy_rows credentials) (tbl_rows devices) ∧
    (∀ (i : nat) r', tbl_rows devices !! i = Some r' → fresh i r') ∧
    tables db' !! "webauthn_credentials" = None ∧
    tables db' !! "webauthn_users" = None.
Proof.
  intros [Hcred Hdev].
  unfold migration, create_table_if_not_exists. rewrite Hdev.
  destruct (indexes db !! "webauthn_devices_pkey"); simpl; [done|].
  unfold create_unique_index. simpl.
  destruct (_ !! "webauthn_devices_kid_key"); simpl; [done|].
  rewrite lookup_insert_eq. simpl.
  destruct (_ !! "webauthn_devices_lookup_key"); simpl; [done|].
  rewrite lookup_insert_eq. simpl.
  unfold insert_select. simpl.
  rewrite (lookup_insert_ne (tables db) "webauthn_devices" "webauthn_credentials")
    by done.
  rewrite Hcred. simpl. rewrite lookup_insert_eq. simpl.
  destruct (select_where "legacy" (tbl_rows credentials)) as [sel|] eqn:Hsel;
    simpl; [|done].
  apply select_where_Some in Hsel. fold (legacy_rows credentials) in Hsel. subst sel.
  destruct (insert_rows _ _ _ _ _) as [t'|] eqn:Ht'; simpl; [|done].
  unfold drop_table_if_exists. simpl. intros [= <-]. simpl.
  pose proof Ht' as Hids.
  apply insert_rows_Some in Ht' as (news & Hrows & Hall); [|done].
  apply insert_rows_ids in Hids as (news' & Hrows' & Hids); [|done].
  simpl in Hrows, Hrows', Hids. exists t'. split; [|split; [|split; [|split]]].
  - by rewrite !lookup_delete_ne, lookup_insert_eq.
  - by rewrite Hrows.
  - rewrite Hrows'. exact Hids.
  - by rewrite lookup_delete_ne, lookup_delete_eq.
  - by rewrite lookup_delete_eq.
Qed.


End Migration.

(** ** The migration on three legacy credentials *)

Lemma exampleDatabase_legacy_dual_table :
  legacy_dual_table exampleDatabase exampleCredentials.
Proof.
  split.
  - vm_compute. reflexivity.
  - vm_compute. reflexivity.
Defined.


(** The third legacy credential is flagged; it has the id 3, and the
    columns [legacy] and [attachment]. *)
Lemma exampleCredentials_harry :
  Sql.legacy_rows exampleCredentials !! 1%nat
  = Some (credential_row 3 "harry" "Primary" "BQYHCA=="
            "00000000-1111-2222-3333-444444444444" 0 true).
Proof. apply (bool_decide_unpack _). vm_compute. exact I. Qed.



(** The device table after the migration: the two flagged rows, with the
    ids 1 and 2 of the new sequence. *)
Example migration_exampleDatabase :
  (fun db' => Sql.tbl_rows <$> Sql.tables db' !! "webauthn_devices")
    <$> Sql.migration (E := Sql.typedEngine) exampleDatabase
  = Some (Some
      [ device_row 1 "john" "Primary" "AQIDBA=="
          "01234567-89ab-cdef-0123-456789abcdef" 3;
        device_row 2 "harry" "Primary" "BQYHCA=="
          "00000000-1111-2222-3333-444444444444" 0 ]).
Proof. apply (bool_decide_unpack _). vm_compute. exact I. Qed.

(** A flagged row without AAGUID stops the migration: the new column is
    [NOT NULL]. *)
Example migration_null_aaguid :
  Sql.migration (E := Sql.typedEngine)
    {| Sql.tables :=
         <["webauthn_credentials" :=
             {| Sql.tbl_columns := [];
                Sql.tbl_rows :=
                  [ <["aaguid" := Sql.Null]>
                      (credential_row 1 "john" "Primary" "AQIDBA==" "" 3 true) ];
                Sql.tbl_nextval := 2 |}]> ∅;
       Sql.indexes := ∅ |}
  = None.
Proof. vm_compute. reflexivity. Qed.

(** A description of more than 30 characters whose excess is blank is cut
    to 30 characters by the engine: the row is copied, and its
    description is not the value it had. *)
Example migration_blank_excess :
  (fun db' => (fun t => (.!! "description") <$> Sql.tbl_rows t)
                <$> Sql.tables db' !! "webauthn_devices")
    <$> Sql.migration (E := Sql.typedEngine)
          {| Sql.tables :=
               <["webauthn_credentials" :=
                   {| Sql.tbl_columns := [];
                      Sql.tbl_rows :=
                        [ credential_row 1 "john"
                            "Primary                         " "AQIDBA=="
                            "01234567-89ab-cdef-0123-456789abcdef" 3 true ];
                      Sql.tbl_nextval := 2 |}]> ∅;
             Sql.indexes := ∅ |}
  = Some (Some [Some (Sql.Text "Primary                       ")]).
Proof. vm_compute. reflexivity. Qed.

(** * More of [webauthn.go] *)

(** ** [HasFIDOU2F] *)

(** X1. [HasFIDOU2F] is true exactly when the user has a device whose
    attestation type is [fido-u2f]; a user without devices has none. *)
Theorem HasFIDOU2F_iff (w : WebAuthnUser.t) :
  HasFIDOU2F w = true ↔
  ∃ device, device ∈ WebAuthnUser.Devices w ∧
            WebAuthnDevice.AttestationType device = "fido-u2f".
Proof.
  unfold HasFIDOU2F.
  induction (WebAuthnUser.Devices w) as [|c rest IH]; simpl.
  - split; [done|]. by intros (device & ?%elem_of_nil & _).
  - unfold attestationTypeFIDOU2F in *. case_decide as Hc.
    + split; [|done]. intros _. exists c. split; [apply list_elem_of_here|done].
    + rewrite IH. split.
      * intros (device & Hin & Ht). exists device.
        split; [by apply list_elem_of_further|done].
      * intros (device & [->|Hin]%elem_of_cons & Ht); [done|]. by exists device.
Qed.

(** ** [WebAuthnCredentialDescriptors] *)

Section MoreCredentials.
Context `{L : Libraries}.

Lemma WebAuthnCredentials_length (w : WebAuthnUser.t) :
  length (WebAuthnCredentials w) = length (WebAuthnUser.Devices w).
Proof.
  unfold WebAuthnCredentials.
  destruct (WebAuthnCredentials_loop_slots (WebAuthnUser.Devices w) 0
              (replicate (length (WebAuthnUser.Devices w)) Credential.zero))
    as (Hlen & _); [by rewrite length_replicate|].
  by rewrite Hlen, length_replicate.
Qed.

Lemma WebAuthnCredentialDescriptors_loop_fmap {D : Type}
    (Descriptor : Credential.t → D) (credentials : list Credential.t) :
  ∀ (i : nat) (descriptors : list D),
    length descriptors = (i + length credentials)%nat →
    WebAuthnCredentialDescriptors_loop Descriptor i credentials descriptors
    = take i descriptors ++ (Descriptor <$> credentials).
Proof.
  induction credentials as [|c rest IH]; intros i descriptors Hlen; simpl.
  - simpl in Hlen. rewrite app_nil_r, take_ge; [done|lia].
  - simpl in Hlen. rewrite IH by (rewrite length_insert; lia).
    rewrite (take_S_r _ _ (Descriptor c)) by (apply list_lookup_insert_eq; lia).
    rewrite take_insert_ge by lia. by rewrite <- app_assoc.
Qed.

(** X2. The descriptors are the descriptors of the credentials of
    [WebAuthnCredentials], one for one in their order: there is one for
    each device of the user, whatever [Descriptor] does. *)
Theorem WebAuthnCredentialDescriptors_fmap {D : Type} (zeroD : D)
    (Descriptor : Credential.t → D) (w : WebAuthnUser.t) :
  WebAuthnCredentialDescriptors zeroD Descriptor w
  = Descriptor <$> WebAuthnCredentials w ∧
  length (WebAuthnCredentialDescriptors zeroD Descriptor w)
  = length (WebAuthnUser.Devices w).
Proof.
  assert (Heq : WebAuthnCredentialDescriptors zeroD Descriptor w
                = Descriptor <$> WebAuthnCredentials w).
  { unfold WebAuthnCredentialDescriptors.
    rewrite WebAuthnCredentialDescriptors_loop_fmap
      by (by rewrite length_replicate).
    by rewrite take_0. }
  split; [done|]. by rewrite Heq, length_fmap, WebAuthnCredentials_length.
Qed.

End MoreCredentials.

(** ** The transports of a credential *)

Lemma Split_no_sep (s : string) (sep : ascii) :
  Forall (fun t => has_byte sep t = false) (Split s sep).
Proof.
  induction s as [|c rest IH]; simpl.
  - by repeat constructor.
  - case_decide as Hc.
    + by constructor.
    + destruct (Split rest sep) as [|seg segs].
      * repeat constructor. simpl. by rewrite bool_decide_eq_false_2.
      * apply Forall_cons in IH as [Hseg Hsegs]. constructor; [|done].
        simpl. by rewrite bool_decide_eq_false_2.
Qed.

Lemma decodeTransports_plain (s : string) : Forall plain_tag (decodeTransports s).
Proof.
  rewrite decodeTransports_filter. apply Forall_forall.
  intros t [Ht Hin]%list_elem_of_filter. split; [done|].
  pose proof (Split_no_sep s comma) as Hall.
  by eapply Forall_forall in Hall.
Qed.

Lemma decodeTransports_encodeTransports (T : list string) :
  Forall plain_tag T → decodeTransports (encodeTransports T) = T.
Proof.
  intros HT. rewrite decodeTransports_filter. unfold encodeTransports.
  destruct T as [|a rest]; [done|].
  rewrite Split_Join; [| done |].
  - induction HT as [|t T' [Ht _] _ IH]; [done|].
    rewrite filter_cons_True by done. by rewrite IH.
  - eapply Forall_impl; [exact HT|]. by intros t [_ ?].
Qed.

(** X3. The transports of the credential built for a device are a
    non-nil list, the decoding of the transport string of the device, and
    none of them is empty or holds a comma, whatever the string is. *)
Theorem deviceCredential_Transport (device : WebAuthnDevice.t) (aaguid : list byte) :
  Credential.Transport (deviceCredential device aaguid)
  = Some (decodeTransports (WebAuthnDevice.Transport device)) ∧
  Forall plain_tag (decodeTransports (WebAuthnDevice.Transport device)).
Proof. split; [reflexivity|apply decodeTransports_plain]. Qed.


(** An empty segment is dropped for good. *)
Example decodeTransports_empty_segment :
  decodeTransports "usb,,nfc," = ["usb"; "nfc"] ∧
  encodeTransports (decodeTransports "usb,,nfc,") = "usb,nfc".
Proof. split; reflexivity. Qed.

(** ** From a registration credential to a device and back *)

Section Relisting.
Context `{L : Libraries}.

Lemma NewWebAuthnDeviceFromCredential_deviceCredential (now : Time)
    (rpid username description : string) (c : Credential.t) (aaguid : list byte) :
  Forall plain_tag (elems (Credential.Transport c)) →
  deviceCredential
    (NewWebAuthnDeviceFromCredential now rpid username description c) aaguid
  = relisted c aaguid.
Proof.
  intros Htags.
  pose proof (decodeTransports_encodeTransports _ Htags) as Hround.
  unfold decodeTransports, encodeTransports in Hround.
  unfold NewWebAuthnDeviceFromCredential.
  destruct (uuid_Parse _) as [u [e|]]; [|case_decide];
    unfold deviceCredential, newCredential, relisted; simpl; rewrite Hround;
    by destruct c as [? ? ? ? [] []].
Qed.

(** X5. A credential that was registered comes back from
    [WebAuthnCredentials]: for a user whose only device was built from
    the credential [c], whose transports are neither empty nor hold a
    comma, the credential list is [c] itself, with the AAGUID as
    [MarshalBinary] gives it and the transports as a non-nil list. *)
Theorem WebAuthnCredentials_relists (now : Time) (rpid username description : string)
    (c : Credential.t) (w : WebAuthnUser.t) (aaguid : list byte) :
  Forall plain_tag (elems (Credential.Transport c)) →
  WebAuthnUser.Devices w
  = [NewWebAuthnDeviceFromCredential now rpid username description c] →
  NullUUID_MarshalBinary
    (WebAuthnDevice.AAGUID
       (NewWebAuthnDeviceFromCredential now rpid username description c))
  = (aaguid, None) →
  WebAuthnCredentials w = [relisted c aaguid].
Proof.
  intros Htags Hdevices Hmarshal. unfold WebAuthnCredentials.
  rewrite Hdevices. simpl. rewrite Hmarshal. simpl.
  by rewrite NewWebAuthnDeviceFromCredential_deviceCredential.
Qed.

End Relisting.

Lemma WebAuthnCredentials_relists_witness :
  WebAuthnCredentials (L := goLibraries)
    {| WebAuthnUser.ID := 1; WebAuthnUser.RPID := "example.com";
       WebAuthnUser.Username := "john"; WebAuthnUser.UserID := "5b1c8a3e";
       WebAuthnUser.DisplayName := "John Doe";
       WebAuthnUser.Devices :=
         [NewWebAuthnDeviceFromCredential (L := goLibraries) 1000 "example.com"
            "john" "Primary" (exampleCredential exampleUUID)] |}
  = [relisted (exampleCredential exampleUUID) exampleUUID].
Proof.
  apply (WebAuthnCredentials_relists (L := goLibraries) 1000 "example.com" "john"
           "Primary" (exampleCredential exampleUUID)).
  - repeat constructor; discriminate.
  - reflexivity.
  - vm_compute. reflexivity.
Defined.

(** The descriptors of the two devices of [twoDeviceUser], with the
    library's [Descriptor]. *)
Example WebAuthnCredentialDescriptors_twoDeviceUser :
  WebAuthnCredentialDescriptors (L := goLibraries) CredentialDescriptor.zero
    Credential_Descriptor twoDeviceUser
  = [ {| CredentialDescriptor.Type' := "public-key";
         CredentialDescriptor.CredentialID := [xfb; xef; xbe; x00; x10];
         CredentialDescriptor.Transport := Some ["usb"; "nfc"];
         CredentialDescriptor.AttestationType := "packed" |};
      {| CredentialDescriptor.Type' := "public-key";
         CredentialDescriptor.CredentialID := [x01; x02; x03; x04];
         CredentialDescriptor.Transport := Some [];
         CredentialDescriptor.AttestationType := "fido-u2f" |} ].
Proof. reflexivity. Qed.

(** ** More of the document form *)

Section MoreDocument.
Context `{L : Libraries}.

(** *** The AAGUID of a device *)

Lemma setAAGUID_AAGUID_ok (aaguid : option string) (device device' : WebAuthnDevice.t) :
  setAAGUID aaguid device = Ok device' →
  AAGUID_ok (WebAuthnDevice.AAGUID device) →
  AAGUID_ok (WebAuthnDevice.AAGUID device').
Proof.
  unfold setAAGUID. destruct aaguid as [s|]; [|by intros [= <-]].
  destruct (uuid_Parse s) as [u [e|]]; [done|].
  case_decide as Hid; intros [= <-]; [|done]. by intros _ _.
Qed.

Lemma setAAGUID_fields (aaguid : option string) (device device' : WebAuthnDevice.t) :
  setAAGUID aaguid device = Ok device' →
  ∃ nu, device' = WebAuthnDevice.set_AAGUID nu device.
Proof.
  unfold setAAGUID. destruct aaguid as [s|].
  - destruct (uuid_Parse s) as [u [e|]]; [done|].
    case_decide; intros [= <-]; [by eexists|].
    exists (WebAuthnDevice.AAGUID device). by destruct device.
  - intros [= <-]. exists (WebAuthnDevice.AAGUID device). by destruct device.
Qed.

(** X6. Every way of building a device keeps its AAGUID well formed: a
    valid AAGUID has a non-zero [ID()]. It holds of the device built from
    a registration credential and of every device [ToDevice] gives, and
    [UnmarshalYAML] keeps it, on success and on failure. *)
Theorem AAGUID_ok_kept :
  (∀ now rpid username description credential,
     AAGUID_ok (WebAuthnDevice.AAGUID
                  (NewWebAuthnDeviceFromCredential now rpid username description
                     credential))) ∧
  (∀ d device, ToDevice d = Ok device →
     AAGUID_ok (WebAuthnDevice.AAGUID device)) ∧
  (∀ decoded receiver,
     AAGUID_ok (WebAuthnDevice.AAGUID receiver) →
     AAGUID_ok (WebAuthnDevice.AAGUID (UnmarshalYAML decoded receiver).1)).
Proof.
  split; [|split].
  - intros now rpid username description credential.
    unfold NewWebAuthnDeviceFromCredential.
    destruct (uuid_Parse _) as [u [e|]]; [done|].
    case_decide; [|done]. by intros _.
  - intros d device. unfold ToDevice.
    destruct (base64_DecodeString (WebAuthnDeviceData.PublicKey d))
      as [publicKey [e|]]; [done|].
    destruct (setAAGUID _ _) as [device0|e] eqn:Hset; [|done].
    apply setAAGUID_AAGUID_ok in Hset; [|done].
    destruct (base64_DecodeString (WebAuthnDeviceData.KID d)) as [kid [e|]]; [done|].
    destruct (WebAuthnDeviceData.LastUsedAt d); by intros [= <-].
  - intros [o [e|]] receiver Hok; [done|]. unfold UnmarshalYAML.
    destruct (base64_DecodeString (WebAuthnDeviceData.PublicKey o))
      as [publicKey [e|]]; [done|].
    destruct (setAAGUID _ _) as [d0|e] eqn:Hset; [|done].
    apply setAAGUID_AAGUID_ok in Hset; [|done].
    by destruct (base64_DecodeString (WebAuthnDeviceData.KID o)) as [kid [e|]].
Qed.

(** *** Which error [ToDevice] returns *)

(** X7. [ToDevice] returns the first error it meets, in the order public
    key, AAGUID, KID: the error of the public key whatever the rest of
    the document is; the error of the AAGUID when the public key
    decodes; the error of the KID when the public key decodes and the
    AAGUID is absent or parses. *)
Theorem ToDevice_first_error (d : WebAuthnDeviceData.t) :
  (∀ publicKey e,
     base64_DecodeString (WebAuthnDeviceData.PublicKey d) = (publicKey, Some e) →
     ToDevice d = Err e) ∧
  (∀ s u e,
     (base64_DecodeString (WebAuthnDeviceData.PublicKey d)).2 = None →
     WebAuthnDeviceData.AAGUID d = Some s → uuid_Parse s = (u, Some e) →
     ToDevice d = Err e) ∧
  (∀ kid e,
     (base64_DecodeString (WebAuthnDeviceData.PublicKey d)).2 = None →
     (∀ s, WebAuthnDeviceData.AAGUID d = Some s → (uuid_Parse s).2 = None) →
     base64_DecodeString (WebAuthnDeviceData.KID d) = (kid, Some e) →
     ToDevice d = Err e).
Proof.
  unfold ToDevice, setAAGUID. split; [|split].
  - intros publicKey e Hpk. by rewrite Hpk.
  - intros s u e Hpk Haaguid Hparse.
    destruct (base64_DecodeString (WebAuthnDeviceData.PublicKey d))
      as [publicKey [e'|]]; [done|].
    by rewrite Haaguid, Hparse.
  - intros kid e Hpk Haaguid Hkid.
    destruct (base64_DecodeString (WebAuthnDeviceData.PublicKey d))
      as [publicKey [e'|]]; [done|].
    rewrite Hkid.
    destruct (WebAuthnDeviceData.AAGUID d) as [s|]; [|done].
    specialize (Haaguid s eq_refl).
    destruct (uuid_Parse s) as [u [e'|]]; [done|]. by case_decide.
Qed.

(** *** [UnmarshalYAML] and [ToDevice] *)

Lemma UnmarshalYAML_ToDevice (o : WebAuthnDeviceData.t) (receiver : WebAuthnDevice.t) :
  match ToDevice o with
  | Ok device => UnmarshalYAML (o, None) receiver = (merged receiver device, None)
  | Err e => (UnmarshalYAML (o, None) receiver).2 = Some e
  end.
Proof.
  unfold ToDevice, UnmarshalYAML, setAAGUID, merged.
  destruct (base64_DecodeString (WebAuthnDeviceData.PublicKey o))
    as [publicKey [e|]]; [done|].
  destruct (WebAuthnDeviceData.AAGUID o) as [s|].
  - destruct (uuid_Parse s) as [u [e|]]; [done|].
    case_decide;
      (destruct (base64_DecodeString (WebAuthnDeviceData.KID o)) as [kid [e|]];
       [done|]);
      by destruct (WebAuthnDeviceData.LastUsedAt o).
  - destruct (base64_DecodeString (WebAuthnDeviceData.KID o)) as [kid [e|]];
      [done|].
    by destruct (WebAuthnDeviceData.LastUsedAt o).
Qed.

Lemma ToDevice_fresh (d : WebAuthnDeviceData.t) (device : WebAuthnDevice.t) :
  ToDevice d = Ok device → merged WebAuthnDevice.zero device = device.
Proof.
  unfold ToDevice, setAAGUID, merged.
  destruct (base64_DecodeString (WebAuthnDeviceData.PublicKey d))
    as [publicKey [e|]]; [done|].
  destruct (WebAuthnDeviceData.AAGUID d) as [s|].
  - destruct (uuid_Parse s) as [u [e|]]; [done|].
    case_decide;
      (destruct (base64_DecodeString (WebAuthnDeviceData.KID d)) as [kid [e|]];
       [done|]);
      destruct (WebAuthnDeviceData.LastUsedAt d); by intros [= <-].
  - destruct (base64_DecodeString (WebAuthnDeviceData.KID d)) as [kid [e|]];
      [done|].
    destruct (WebAuthnDeviceData.LastUsedAt d); by intros [= <-].
Qed.

(** X8. On a document that was decoded, [UnmarshalYAML] fails exactly
    when [ToDevice] fails, with the same error, whatever the receiver is;
    and on a fresh receiver it gives the device [ToDevice] gives. *)
Theorem UnmarshalYAML_as_ToDevice (o : WebAuthnDeviceData.t) :
  (∀ receiver,
     (UnmarshalYAML (o, None) receiver).2
     = match ToDevice o with Ok _ => None | Err e => Some e end) ∧
  (∀ device, ToDevice o = Ok device →
     UnmarshalYAML (o, None) WebAuthnDevice.zero = (device, None)).
Proof.
  split.
  - intros receiver. pose proof (UnmarshalYAML_ToDevice o receiver) as H.
    destruct (ToDevice o) as [device|e]; [by rewrite H|done].
  - intros device Hdevice.
    pose proof (UnmarshalYAML_ToDevice o WebAuthnDevice.zero) as H.
    rewrite Hdevice in H. by rewrite H, (ToDevice_fresh o device Hdevice).
Qed.

(** X10. On a receiver that is not fresh, a successful [UnmarshalYAML]
    gives the device of [ToDevice] with the id of the receiver; and the
    last-used time and the AAGUID of the receiver stay when the document
    has none (or an AAGUID whose [ID()] is zero): they are not cleared. *)
Theorem UnmarshalYAML_merges (o : WebAuthnDeviceData.t)
    (receiver device : WebAuthnDevice.t) :
  ToDevice o = Ok device →
  UnmarshalYAML (o, None) receiver = (merged receiver device, None).
Proof.
  intros Hdevice. pose proof (UnmarshalYAML_ToDevice o receiver) as H.
  by rewrite Hdevice in H.
Qed.

(** X9. [UnmarshalYAML] that returns an error has written nothing but,
    at most, the public key and the AAGUID of the receiver; when the
    error is that of decoding the YAML node, the receiver is as it was. *)
Theorem UnmarshalYAML_error_frame (decoded : WebAuthnDeviceData.t * option error)
    (receiver : WebAuthnDevice.t) (e : error) :
  (UnmarshalYAML decoded receiver).2 = Some e →
  same_outside_key_and_AAGUID receiver (UnmarshalYAML decoded receiver).1 ∧
  (decoded.2 ≠ None → (UnmarshalYAML decoded receiver).1 = receiver).
Proof.
  destruct decoded as [o [e0|]]; unfold UnmarshalYAML; simpl.
  { intros _. unfold same_outside_key_and_AAGUID. tauto. }
  destruct (base64_DecodeString (WebAuthnDeviceData.PublicKey o))
    as [publicKey [e1|]]; simpl.
  { intros _. unfold same_outside_key_and_AAGUID. simpl. tauto. }
  destruct (setAAGUID _ _) as [d0|e1] eqn:Hset; simpl.
  - apply setAAGUID_fields in Hset as [nu ->].
    destruct (base64_DecodeString (WebAuthnDeviceData.KID o)) as [kid [e2|]];
      simpl; [|done].
    intros _. unfold same_outside_key_and_AAGUID. simpl. tauto.
  - intros _. unfold same_outside_key_and_AAGUID. simpl. tauto.
Qed.

(** *** From a document to a device and back *)

Lemma ToDevice_Transport (d : WebAuthnDeviceData.t) (device : WebAuthnDevice.t) :
  ToDevice d = Ok device →
  WebAuthnDevice.Transport device
  = Join (elems (WebAuthnDeviceData.Transports d)) ",".
Proof.
  unfold ToDevice.
  destruct (base64_DecodeString (WebAuthnDeviceData.PublicKey d))
    as [publicKey [e|]]; [done|].
  destruct (setAAGUID _ _) as [d0|e] eqn:Hset; [|done].
  apply setAAGUID_fields in Hset as [nu ->].
  destruct (base64_DecodeString (WebAuthnDeviceData.KID d)) as [kid [e|]]; [done|].
  destruct (WebAuthnDeviceData.LastUsedAt d); by intros [= <-].
Qed.

Lemma Join_not_empty (a : string) (rest : list string) (sep : string) :
  a ≠ "" → Join (a :: rest) sep ≠ "".
Proof.
  intros Ha. simpl. destruct rest; [done|]. by destruct a.
Qed.

(** X13. A document that is imported and exported again keeps its
    transports when they are a non-empty list of tags that are neither
    empty nor hold a comma; an empty list, nil or not, comes back as the
    nil slice. *)
Theorem ToData_ToDevice_Transports (d : WebAuthnDeviceData.t)
    (device : WebAuthnDevice.t) :
  ToDevice d = Ok device →
  Forall plain_tag (elems (WebAuthnDeviceData.Transports d)) →
  WebAuthnDeviceData.Transports (ToData device)
  = match elems (WebAuthnDeviceData.Transports d) with
    | [] => None
    | tag :: tags => Some (tag :: tags)
    end.
Proof.
  intros Hdevice Htags. apply ToDevice_Transport in Hdevice.
  unfold ToData. rewrite Hdevice.
  destruct (elems (WebAuthnDeviceData.Transports d)) as [|tag tags] eqn:Et.
  - by case_decide.
  - case_decide as Hne.
    + change (Some (Split (Join (tag :: tags) ",") comma) = Some (tag :: tags)).
      rewrite Split_Join; [done|done|].
      eapply Forall_impl; [exact Htags|]. by intros t [_ ?].
    + exfalso. apply Forall_cons in Htags as [[Htag _] _].
      by apply (Join_not_empty tag tags ",") in Htag.
Qed.

End MoreDocument.

(** ** More of [UpdateSignInInfo] *)

(** X11. [UpdateSignInInfo] panics exactly when the RPID of the device is
    empty and either the configuration is nil, or the device is a
    [fido-u2f] one and the configuration has no origin; in particular it
    never panics, and never reads the configuration, for a device whose
    RPID is set. *)
Theorem UpdateSignInInfo_panics_iff (config : option Config.t) (now : Time)
    (signCount : Z) (d : WebAuthnDevice.t) :
  (UpdateSignInInfo config now signCount d).2 = Panicked ↔ panics config d.
Proof.
  unfold UpdateSignInInfo, panics. simpl.
  case_decide as Hrpid; simpl.
  - split; [done|]. by intros [? _].
  - case_decide as Htype; destruct config as [config|]; simpl.
    + destruct (Config.RPOrigins config); simpl; split; try done.
      by intros (_ & _ & ?).
    + done.
    + split; [done|]. by intros (_ & ? & _).
    + done.
Qed.

(** X12. Two calls in a row are one call: after a sign-in with [now1] and
    [signCount1], a second one with the same configuration leaves the
    device, and ends, as the second one alone would; the RPID that the
    first call assigned is the one the second would have assigned. *)
Theorem UpdateSignInInfo_twice (config : option Config.t) (now1 now2 : Time)
    (signCount1 signCount2 : Z) (d : WebAuthnDevice.t) :
  UpdateSignInInfo config now2 signCount2
    (UpdateSignInInfo config now1 signCount1 d).1
  = UpdateSignInInfo config now2 signCount2 d.
Proof.
  unfold UpdateSignInInfo. simpl.
  destruct config as [config|];
    [destruct (Config.RPOrigins config) as [|origin origins]|];
    repeat (case_decide; simpl in *); try done; congruence.
Qed.

(** ** The document form on more values *)

Lemma AAGUID_ok_kept_witness :
  AAGUID_ok (WebAuthnDevice.AAGUID passkeyDevice) ∧
  AAGUID_ok
    (WebAuthnDevice.AAGUID
       (UnmarshalYAML (L := goLibraries)
          (exampleDocument (Some "00000000-1111-2222-3333-444444444444"), None)
          passkeyDevice).1) ∧
  ∃ device,
    ToDevice (L := goLibraries)
      (exampleDocument (Some "01234567-89ab-cdef-0123-456789abcdef"))
    = Ok device ∧
    AAGUID_ok (WebAuthnDevice.AAGUID device).
Proof.
  destruct (AAGUID_ok_kept (L := goLibraries)) as (_ & Himport & Hyaml).
  assert (H : AAGUID_ok (WebAuthnDevice.AAGUID passkeyDevice))
    by (intros _; vm_compute; discriminate).
  split; [exact H|]. split.
  - exact (Hyaml _ passkeyDevice H).
  - destruct (ToDevice (L := goLibraries)
                (exampleDocument (Some "01234567-89ab-cdef-0123-456789abcdef")))
      as [device|e] eqn:Hdevice; [|vm_compute in Hdevice; discriminate].
    exists device. split; [reflexivity|].
    exact (Himport _ device Hdevice).
Defined.

Lemma ToDevice_first_error_witness :
  (base64_DecodeString (Libraries := goLibraries)
     (WebAuthnDeviceData.PublicKey
        (WebAuthnDeviceData.set_AAGUID (Some "not-a-uuid")
           (bareDocument "not base64!")))).2 = None ∧
  (base64_DecodeString (Libraries := goLibraries) "not base64!").2 ≠ None ∧
  ToDevice (L := goLibraries)
    (WebAuthnDeviceData.set_AAGUID (Some "not-a-uuid") (bareDocument "not base64!"))
  = Err "invalid UUID length: 10".
Proof.
  assert (Hpk : (base64_DecodeString (Libraries := goLibraries)
     (WebAuthnDeviceData.PublicKey
        (WebAuthnDeviceData.set_AAGUID (Some "not-a-uuid")
           (bareDocument "not base64!")))).2 = None) by (vm_compute; reflexivity).
  split; [exact Hpk|]. split; [vm_compute; discriminate|].
  apply (proj1 (proj2 (ToDevice_first_error (L := goLibraries) _))
           "not-a-uuid" uuid_Nil "invalid UUID length: 10" Hpk eq_refl).
  vm_compute. reflexivity.
Defined.

Lemma UnmarshalYAML_as_ToDevice_witness :
  ∃ device,
    ToDevice (L := goLibraries) (bareDocument "AQIDBA==") = Ok device ∧
    UnmarshalYAML (L := goLibraries) (bareDocument "AQIDBA==", None)
      WebAuthnDevice.zero = (device, None).
Proof.
  destruct (ToDevice (L := goLibraries) (bareDocument "AQIDBA==")) as [device|e]
    eqn:Hdevice; [|by vm_compute in Hdevice].
  exists device. split; [reflexivity|].
  exact (proj2 (UnmarshalYAML_as_ToDevice (L := goLibraries)
                  (bareDocument "AQIDBA==")) device Hdevice).
Defined.

Lemma UnmarshalYAML_merges_witness :
  ∃ device,
    ToDevice (L := goLibraries) (bareDocument "AQIDBA==") = Ok device ∧
    WebAuthnDevice.AAGUID device = NullUUID.zero ∧
    WebAuthnDevice.LastUsedAt device = NullTime.zero ∧
    UnmarshalYAML (L := goLibraries) (bareDocument "AQIDBA==", None) passkeyDevice
    = (merged passkeyDevice device, None) ∧
    WebAuthnDevice.ID (merged passkeyDevice device) = 8 ∧
    WebAuthnDevice.AAGUID (merged passkeyDevice device)
    = {| NullUUID.Valid := true; NullUUID.UUID := exampleUUID |} ∧
    WebAuthnDevice.LastUsedAt (merged passkeyDevice device)
    = {| NullTime.Valid := true; NullTime.Time := 2500 |}.
Proof.
  destruct (ToDevice (L := goLibraries) (bareDocument "AQIDBA==")) as [device|e]
    eqn:Hdevice; [|by vm_compute in Hdevice].
  exists device. split; [reflexivity|].
  pose proof (UnmarshalYAML_merges (L := goLibraries) (bareDocument "AQIDBA==")
                passkeyDevice device Hdevice) as Hmerge.
  vm_compute in Hdevice. injection Hdevice as <-.
  split; [reflexivity|]. split; [reflexivity|]. split; [exact Hmerge|].
  split; [reflexivity|]. split; reflexivity.
Defined.

Lemma UnmarshalYAML_error_frame_witness :
  (UnmarshalYAML (L := goLibraries) (bareDocument "not base64!", None)
     passkeyDevice).2 = Some "illegal base64 data at input byte 3" ∧
  same_outside_key_and_AAGUID passkeyDevice
    (UnmarshalYAML (L := goLibraries) (bareDocument "not base64!", None)
       passkeyDevice).1 ∧
  WebAuthnDevice.PublicKey
    (UnmarshalYAML (L := goLibraries) (bareDocument "not base64!", None)
       passkeyDevice).1 = [x01; x02; x03] ∧
  WebAuthnDevice.KID
    (UnmarshalYAML (L := goLibraries) (bareDocument "not base64!", None)
       passkeyDevice).1 = WebAuthnDevice.KID passkeyDevice.
Proof.
  assert (Herr : (UnmarshalYAML (L := goLibraries) (bareDocument "not base64!", None)
                    passkeyDevice).2 = Some "illegal base64 data at input byte 3")
    by (vm_compute; reflexivity).
  split; [exact Herr|]. split.
  - exact (proj1 (UnmarshalYAML_error_frame (L := goLibraries) _ passkeyDevice _ Herr)).
  - split; vm_compute; reflexivity.
Defined.

Lemma ToData_ToDevice_Transports_witness :
  ∃ device,
    ToDevice (L := goLibraries) (exampleDocument None) = Ok device ∧
    WebAuthnDeviceData.Transports (ToData (L := goLibraries) device)
    = Some ["usb"; "nfc"].
Proof.
  destruct (ToDevice (L := goLibraries) (exampleDocument None)) as [device|e]
    eqn:Hdevice; [|by vm_compute in Hdevice].
  exists device. split; [reflexivity|].
  apply (ToData_ToDevice_Transports (L := goLibraries) (exampleDocument None)
           device Hdevice).
  repeat constructor; discriminate.
Defined.

(** An empty list of transports that is not nil comes back as nil. *)
Example ToData_ToDevice_empty_Transports :
  ∃ device,
    ToDevice (L := goLibraries) (bareDocument "AQIDBA==") = Ok device ∧
    WebAuthnDeviceData.Transports (bareDocument "AQIDBA==") = Some [] ∧
    WebAuthnDeviceData.Transports (ToData (L := goLibraries) device) = None.
Proof. eexists. split; [vm_compute; reflexivity|]. split; reflexivity. Qed.

(** ** More of the migration *)

Section MoreMigration.
Import Sql.
Context `{E : Engine}.

Local Ltac decided := apply (bool_decide_unpack _); vm_compute; exact I.

(** The statements of the script, one after the other. *)
Lemma migration_steps (db db' : database) :
  migration db = Some db' →
  ∃ db1 db2 db3 db4 db5,
    create_table_if_not_exists "webauthn_devices" webauthn_devices_columns
      "webauthn_devices_pkey" db = Some db1 ∧
    create_unique_index "webauthn_devices_kid_key" "webauthn_devices" ["kid"] db1
    = Some db2 ∧
    create_unique_index "webauthn_devices_lookup_key" "webauthn_devices"
      ["username"; "description"] db2 = Some db3 ∧
    insert_select "webauthn_devices" copied_columns copied_columns
      "webauthn_credentials" "legacy" db3 = Some db4 ∧
    drop_table_if_exists "webauthn_credentials" db4 = Some db5 ∧
    drop_table_if_exists "webauthn_users" db5 = Some db'.
Proof.
  unfold migration. intros H.
  destruct (create_table_if_not_exists _ _ _ db) as [db1|] eqn:H1; [|done].
  simpl in H.
  destruct (create_unique_index "webauthn_devices_kid_key" _ _ db1) as [db2|] eqn:H2;
    [|done].
  simpl in H.
  destruct (create_unique_index "webauthn_devices_lookup_key" _ _ db2) as [db3|]
    eqn:H3; [|done].
  simpl in H.
  destruct (insert_select _ _ _ _ _ db3) as [db4|] eqn:H4; [|done].
  simpl in H. exists db1, db2, db3, db4. eexists.
  do 4 (split; [first [eassumption|reflexivity]|]). split; [reflexivity|exact H].
Qed.

Lemma create_table_if_not_exists_Some (name : string) (cols : list column)
    (pkey : string) (db db' : database) :
  create_table_if_not_exists name cols pkey db = Some db' →
  is_Some (tables db' !! name) ∧
  (∀ n, n ≠ name → tables db' !! n = tables db !! n) ∧
  (∀ n idx, indexes db !! n = Some idx → indexes db' !! n = Some idx).
Proof.
  unfold create_table_if_not_exists.
  destruct (tables db !! name) as [t|] eqn:Ht.
  - intros [= <-]. by rewrite Ht.
  - destruct (indexes db !! pkey) eqn:Hp; [done|]. intros [= <-]. simpl.
    split; [by rewrite lookup_insert_eq|]. split.
    + intros n Hn. by rewrite lookup_insert_ne.
    + intros n idx Hidx. rewrite lookup_insert_ne; [done|]. by intros ->; congruence.
Qed.

Lemma create_unique_index_Some (idx tbl : string) (cols : list string)
    (db db' : database) :
  create_unique_index idx tbl cols db = Some db' →
  tables db' = tables db ∧
  indexes db !! idx = None ∧
  indexes db' = <[idx := {| idx_table := tbl; idx_columns := cols |}]> (indexes db).
Proof.
  unfold create_unique_index.
  destruct (indexes db !! idx) eqn:Hi; [done|].
  destruct (tables db !! tbl) as [t|]; [|done].
  destruct (unique_rows cols (tbl_rows t)); [|done]. by intros [= <-].
Qed.

Lemma insert_select_Some (target : string) (tcols scols : list string)
    (source c : string) (db db' : database) :
  insert_select target tcols scols source c db = Some db' →
  ∃ src tgt sel tgt',
    tables db !! source = Some src ∧ tables db !! target = Some tgt ∧
    select_where c (tbl_rows src) = Some sel ∧
    insert_rows (indexes_of target db) tcols scols tgt sel = Some tgt' ∧
    tables db' = <[target := tgt']> (tables db) ∧ indexes db' = indexes db.
Proof.
  unfold insert_select.
  destruct (tables db !! source) as [src|] eqn:Hsrc; [|done]. simpl.
  destruct (tables db !! target) as [tgt|] eqn:Htgt; [|done]. simpl.
  destruct (select_where c (tbl_rows src)) as [sel|] eqn:Hsel; [|done]. simpl.
  destruct (insert_rows _ _ _ _ _) as [tgt'|] eqn:Hins; [|done]. simpl.
  intros [= <-]. exists src, tgt, sel, tgt'.
  repeat split; first [reflexivity|assumption].
Qed.

(** X14. The migration touches nothing else: a table other than
    [webauthn_devices], [webauthn_credentials] and [webauthn_users] is
    after the migration what it was before, and so is an index on a
    table other than the two legacy tables. *)
Theorem migration_frame (db db' : database) :
  migration db = Some db' →
  (∀ name, name ∉ migrated_tables → tables db' !! name = tables db !! name) ∧
  (∀ name idx,
     indexes db !! name = Some idx →
     idx_table idx ≠ "webauthn_credentials" → idx_table idx ≠ "webauthn_users" →
     indexes db' !! name = Some idx).
Proof.
  intros (db1 & db2 & db3 & db4 & db5 & H1 & H2 & H3 & H4 & H5 & H6)%migration_steps.
  apply create_table_if_not_exists_Some in H1 as (_ & Ht1 & Hi1).
  apply create_unique_index_Some in H2 as (Ht2 & Hn2 & Hi2).
  apply create_unique_index_Some in H3 as (Ht3 & Hn3 & Hi3).
  apply insert_select_Some in H4
    as (src & tgt & sel & tgt' & _ & _ & _ & _ & Ht4 & Hi4).
  unfold drop_table_if_exists in H5, H6.
  injection H5 as <-. injection H6 as <-. simpl. split.
  - intros name Hname. unfold migrated_tables in Hname.
    rewrite !lookup_delete_ne by set_solver.
    rewrite Ht4, lookup_insert_ne by set_solver.
    rewrite Ht3, Ht2. apply Ht1. set_solver.
  - intros name idx Hidx Hc Hu.
    apply map_lookup_filter_Some. split; [|done].
    apply map_lookup_filter_Some. split; [|done].
    apply Hi1 in Hidx.
    assert (Hidx2 : indexes db2 !! name = Some idx).
    { rewrite Hi2. rewrite lookup_insert_ne; [done|]. intros <-. congruence. }
    assert (Hidx3 : indexes db3 !! name = Some idx).
    { rewrite Hi3. rewrite lookup_insert_ne; [done|]. intros <-. congruence. }
    by rewrite Hi4.
Qed.

(** X15. The migration cannot be run twice: on the database it leaves,
    it fails, because the first index of the device table is there
    already. *)
Theorem migration_not_twice (db db' : database) :
  migration db = Some db' → migration db' = None.
Proof.
  intros (db1 & db2 & db3 & db4 & db5 & H1 & H2 & H3 & H4 & H5 & H6)%migration_steps.
  apply create_unique_index_Some in H2 as (Ht2 & Hn2 & Hi2).
  apply create_unique_index_Some in H3 as (Ht3 & Hn3 & Hi3).
  apply insert_select_Some in H4
    as (src & tgt & sel & tgt' & _ & _ & _ & _ & Ht4 & Hi4).
  unfold drop_table_if_exists in H5, H6.
  injection H5 as <-. injection H6 as <-.
  unfold migration, create_table_if_not_exists. simpl.
  rewrite !lookup_delete_ne by done. rewrite Ht4, lookup_insert_eq. simpl.
  unfold create_unique_index. simpl.
  assert (Hthere : filter (fun kv : string * index => idx_table kv.2 ≠ "webauthn_users")
            (filter (fun kv : string * index =>
                       idx_table kv.2 ≠ "webauthn_credentials") (indexes db4))
          !! "webauthn_devices_kid_key"
          = Some {| idx_table := "webauthn_devices"; idx_columns := ["kid"] |}).
  { apply map_lookup_filter_Some. split; [|done].
    apply map_lookup_filter_Some. split; [|done].
    rewrite Hi4, Hi3, lookup_insert_ne by done. by rewrite Hi2, lookup_insert_eq. }
  by rewrite Hthere.
Qed.

(** *** The rows of the device table *)

(** X16. After the migration of a database that had no device table,
    the rows of the device table have the ids 1, 2, ... of a new
    sequence, in their order, whatever their ids were in the legacy
    table; and they have no column but the thirteen of the device table:
    what a legacy row holds in another column is not carried over. *)
Theorem migration_new_ids (db db' : database) (credentials : table) :
  legacy_dual_table db credentials → migration db = Some db' →
  ∃ devices,
    tables db' !! "webauthn_devices" = Some devices ∧
    ∀ (i : nat) r', tbl_rows devices !! i = Some r' →
      r' !! "id" = Some (Int (1 + Z.of_nat i)) ∧
      ∀ c, c ∉ col_name <$> webauthn_devices_columns → r' !! c = None.
Proof.
  intros [Hcred Hdev]
    (db1 & db2 & db3 & db4 & db5 & H1 & H2 & H3 & H4 & H5 & H6)%migration_steps.
  unfold create_table_if_not_exists in H1. rewrite Hdev in H1.
  destruct (indexes db !! "webauthn_devices_pkey"); [done|]. injection H1 as <-.
  apply create_unique_index_Some in H2 as (Ht2 & _ & _).
  apply create_unique_index_Some in H3 as (Ht3 & _ & _).
  apply insert_select_Some in H4
    as (src & tgt & sel & tgt' & _ & Htgt & _ & Hins & Ht4 & _).
  rewrite Ht3, Ht2 in Htgt. simpl in Htgt. rewrite lookup_insert_eq in Htgt.
  injection Htgt as <-.
  apply insert_rows_ids in Hins as (news & Hrows & Hids); [|done].
  simpl in Hrows, Hids.
  unfold drop_table_if_exists in H5, H6.
  injection H5 as <-. injection H6 as <-. simpl.
  exists tgt'. split.
  - by rewrite !lookup_delete_ne, Ht4, lookup_insert_eq.
  - rewrite Hrows. exact Hids.
Qed.

(** *** What a migration that ran to its end says of the rows *)

Lemma select_where_Some_column (c : string) (rows sel : list row) :
  select_where c rows = Some sel → Forall (fun r => is_Some (r !! c)) rows.
Proof.
  revert sel. induction rows as [|r rest IH]; intros sel; simpl; [by constructor|].
  unfold is_true. destruct (r !! c) as [v|] eqn:Hv; simpl; [|done].
  destruct (select_where c rest) as [sel'|]; simpl; [|done].
  intros _. constructor; [by rewrite Hv|]. by eapply IH.
Qed.

Lemma new_row_accepted (n : Z) (r r' : row) :
  new_row n copied_columns copied_columns r webauthn_devices_columns = Some r' →
  accepted r.
Proof.
  intros Hr' cd Hcd.
  destruct (new_row_Some n copied_columns copied_columns r r'
              webauthn_devices_columns) with (c := cd)
    as [Hv [v' Hsome]]; [decided|done|by apply list_elem_of_further|].
  rewrite Hsome in Hv.
  destruct (new_value_stored n r cd v') as (v & Hr & Hstore & Hnull); [|done|].
  { rewrite copied_columns_names. by apply list_elem_of_fmap_2. }
  by exists v, v'.
Qed.

Lemma insert_rows_accepted (idxs : list (list string)) (rs : list row) :
  ∀ t t' : table,
    tbl_columns t = webauthn_devices_columns →
    insert_rows idxs copied_columns copied_columns t rs = Some t' →
    Forall accepted rs.
Proof.
  induction rs as [|r rs IH]; intros t t' Hcols; simpl; [by constructor|].
  unfold insert_one. rewrite Hcols.
  destruct (new_row _ _ _ _ _) as [r'|] eqn:Hr'; simpl; [|done].
  destruct (forallb _ _); [|done]. intros Ht'.
  constructor; [by eapply new_row_accepted|].
  by apply (IH _ t' (eq_refl : tbl_columns
                       {| tbl_columns := webauthn_devices_columns;
                          tbl_rows := tbl_rows t ++ [r'];
                          tbl_nextval := tbl_nextval t + 1 |}
                     = webauthn_devices_columns)).
Qed.

Lemma unique_rows_snoc (cols : list string) (l : list row) (r : row) :
  unique_rows cols l = true →
  (∀ old, old ∈ l → collide cols old r = false) →
  unique_rows cols (l ++ [r]) = true.
Proof.
  induction l as [|a l IH]; simpl; [done|].
  intros [Ha Hl]%andb_true_iff Hall. apply andb_true_iff. split.
  - rewrite forallb_app. apply andb_true_iff. split; [done|]. simpl.
    rewrite Hall; [done|]. apply list_elem_of_here.
  - apply IH; [done|]. intros old Hold. apply Hall. by apply list_elem_of_further.
Qed.

(** The rows of a table stay unique in an index of the table while rows
    are inserted: a row that collides is refused. *)
Lemma insert_rows_unique (idxs : list (list string)) (cols tcols scols : list string) :
  cols ∈ idxs →
  ∀ (rs : list row) (t t' : table),
    unique_rows cols (tbl_rows t) = true →
    insert_rows idxs tcols scols t rs = Some t' →
    unique_rows cols (tbl_rows t') = true.
Proof.
  intros Hcols. induction rs as [|r rs IH]; intros t t' Huniq; simpl.
  - by intros [= <-].
  - unfold insert_one.
    destruct (new_row _ _ _ _ _) as [r'|] eqn:Hr'; simpl; [|done].
    destruct (forallb _ idxs) eqn:Hfree; [|done]. intros Ht'.
    rewrite forallb_forall in Hfree.
    specialize (Hfree cols (proj1 (list_elem_of_In _ _) Hcols)).
    rewrite forallb_forall in Hfree.
    simpl in Ht'. eapply IH; [|exact Ht']. simpl.
    apply unique_rows_snoc; [done|].
    intros old Hold. rewrite collide_sym.
    apply negb_true_iff, Hfree. by apply list_elem_of_In.
Qed.

(** X17. A migration that ran to its end on a database without device
    table found legacy rows that the device table takes: every legacy
    row has the column [legacy]; every flagged row has each copied
    column, with a value that the engine accepts for the new column and
    stores as a value that is not [NULL] where the new column is
    [NOT NULL]; and no two rows of the device table have the same KID or
    the same username and description. *)
Theorem migration_Some_rows (db db' : database) (credentials : table) :
  legacy_dual_table db credentials → migration db = Some db' →
  Forall (fun r => is_Some (r !! "legacy")) (tbl_rows credentials) ∧
  Forall accepted (legacy_rows credentials) ∧
  ∃ devices,
    tables db' !! "webauthn_devices" = Some devices ∧
    unique_rows ["kid"] (tbl_rows devices) = true ∧
    unique_rows ["username"; "description"] (tbl_rows devices) = true.
Proof.
  intros [Hcred Hdev]
    (db1 & db2 & db3 & db4 & db5 & H1 & H2 & H3 & H4 & H5 & H6)%migration_steps.
  unfold create_table_if_not_exists in H1. rewrite Hdev in H1.
  destruct (indexes db !! "webauthn_devices_pkey"); [done|]. injection H1 as <-.
  apply create_unique_index_Some in H2 as (Ht2 & _ & Hi2).
  apply create_unique_index_Some in H3 as (Ht3 & _ & Hi3).
  apply insert_select_Some in H4
    as (src & tgt & sel & tgt' & Hsrc & Htgt & Hsel & Hins & Ht4 & _).
  rewrite Ht3, Ht2 in Hsrc, Htgt. simpl in Hsrc, Htgt.
  rewrite lookup_insert_eq in Htgt. injection Htgt as <-.
  rewrite lookup_insert_ne, Hcred in Hsrc by done. injection Hsrc as <-.
  pose proof (select_where_Some_column _ _ _ Hsel) as Hlegacy.
  apply select_where_Some in Hsel. fold (legacy_rows credentials) in Hsel.
  subst sel.
  split; [done|]. split.
  { eapply insert_rows_accepted; [|exact Hins]. reflexivity. }
  unfold drop_table_if_exists in H5, H6.
  injection H5 as <-. injection H6 as <-. simpl.
  exists tgt'. split; [by rewrite !lookup_delete_ne, Ht4, lookup_insert_eq|].
  split.
  - eapply (insert_rows_unique _ ["kid"]); [| |exact Hins]; [|reflexivity].
    apply elem_of_indexes_of. eexists "webauthn_devices_kid_key", _.
    rewrite Hi3, lookup_insert_ne by done. rewrite Hi2, lookup_insert_eq. done.
  - eapply (insert_rows_unique _ ["username"; "description"]); [| |exact Hins]; [|reflexivity].
    apply elem_of_indexes_of. eexists "webauthn_devices_lookup_key", _.
    rewrite Hi3, lookup_insert_eq. done.
Qed.

End MoreMigration.

(** ** More of the migration on the example database *)

Lemma migration_frame_witness :
  ∃ db',
    Sql.migration (E := Sql.typedEngine) exampleDatabaseWithOther = Some db' ∧
    Sql.tables db' !! "totp_configurations"
    = Sql.tables exampleDatabaseWithOther !! "totp_configurations" ∧
    Sql.indexes db' !! "totp_configurations_username_key"
    = Some {| Sql.idx_table := "totp_configurations";
              Sql.idx_columns := ["username"] |}.
Proof.
  destruct (Sql.migration (E := Sql.typedEngine) exampleDatabaseWithOther) as [db'|] eqn:Hrun;
    [|vm_compute in Hrun; discriminate].
  exists db'. split; [reflexivity|].
  destruct (migration_frame exampleDatabaseWithOther db' Hrun) as [Htables Hindexes].
  split.
  - apply Htables. apply (bool_decide_unpack _). vm_compute. exact I.
  - apply Hindexes; [vm_compute; reflexivity|discriminate|discriminate].
Defined.

Lemma migration_not_twice_witness :
  ∃ db',
    Sql.migration (E := Sql.typedEngine) exampleDatabase = Some db' ∧
    Sql.migration (E := Sql.typedEngine) db' = None.
Proof.
  destruct (Sql.migration (E := Sql.typedEngine) exampleDatabase) as [db'|] eqn:Hrun;
    [|vm_compute in Hrun; discriminate].
  exists db'. split; [reflexivity|].
  exact (migration_not_twice exampleDatabase db' Hrun).
Defined.

Lemma migration_new_ids_witness :
  Sql.legacy_rows exampleCredentials !! 1%nat
  = Some (credential_row 3 "harry" "Primary" "BQYHCA=="
            "00000000-1111-2222-3333-444444444444" 0 true) ∧
  ∃ db' devices r',
    Sql.migration (E := Sql.typedEngine) exampleDatabase = Some db' ∧
    Sql.tables db' !! "webauthn_devices" = Some devices ∧
    Sql.tbl_rows devices !! 1%nat = Some r' ∧
    r' !! "id" = Some (Sql.Int 2) ∧
    r' !! "kid" = Some (Sql.Text "BQYHCA==") ∧
    r' !! "attachment" = None ∧ r' !! "legacy" = None.
Proof.
  split; [exact exampleCredentials_harry|].
  destruct (Sql.migration (E := Sql.typedEngine) exampleDatabase) as [db'|] eqn:Hrun;
    [|vm_compute in Hrun; discriminate].
  destruct (migration_new_ids exampleDatabase db' exampleCredentials
              exampleDatabase_legacy_dual_table Hrun) as (devices & Hdevices & Hids).
  destruct (migration_result exampleDatabase db' exampleCredentials
              exampleDatabase_legacy_dual_table Hrun)
    as (devices0 & Hdevices0 & Hcopied & _).
  rewrite Hdevices in Hdevices0. injection Hdevices0 as <-.
  destruct (Forall2_lookup_l _ _ _ _ _ Hcopied exampleCredentials_harry)
    as (r' & Hr' & Hkid).
  exists db', devices, r'. split; [reflexivity|]. split; [exact Hdevices|].
  split; [exact Hr'|].
  destruct (Hids 1%nat r' Hr') as [Hid Hnone].
  split; [exact Hid|]. split.
  - destruct (Hkid {| Sql.col_name := "kid"; Sql.col_type := Sql.VARCHAR 512;
                      Sql.col_not_null := true |})
      as (v & v' & Hv & Hstore & Hv').
    { apply list_elem_of_lookup. exists 5%nat. reflexivity. }
    simpl in Hv'. rewrite Hv'.
    assert (Hv0 : credential_row 3 "harry" "Primary" "BQYHCA=="
                    "00000000-1111-2222-3333-444444444444" 0 true !! "kid"
                  = Some (Sql.Text "BQYHCA==")).
    { apply (bool_decide_unpack _). vm_compute. exact I. }
    simpl in Hv. rewrite Hv0 in Hv. injection Hv as <-.
    simpl in Hstore. rewrite <- Hstore. reflexivity.
  - split; apply Hnone; apply (bool_decide_unpack _); vm_compute; exact I.
Defined.

Lemma migration_Some_rows_witness :
  ∃ db' devices,
    Sql.migration (E := Sql.typedEngine) exampleDatabase = Some db' ∧
    Sql.tables db' !! "webauthn_devices" = Some devices ∧
    Forall (accepted (E := Sql.typedEngine)) (Sql.legacy_rows exampleCredentials) ∧
    Sql.unique_rows ["kid"] (Sql.tbl_rows devices) = true ∧
    Sql.unique_rows ["username"; "description"] (Sql.tbl_rows devices) = true.
Proof.
  destruct (Sql.migration (E := Sql.typedEngine) exampleDatabase) as [db'|] eqn:Hrun;
    [|vm_compute in Hrun; discriminate].
  destruct (migration_Some_rows exampleDatabase db' exampleCredentials
              exampleDatabase_legacy_dual_table Hrun)
    as (_ & Haccepted & devices & Hdevices & Hkid & Hlookup).
  exists db', devices. split; [reflexivity|]. split; [exact Hdevices|].
  split; [exact Haccepted|]. split; [exact Hkid|exact Hlookup].
Defined.

(** Two flagged rows with one KID stop the migration. *)
Example migration_same_kid :
  Sql.migration (E := Sql.typedEngine)
    {| Sql.tables :=
         <["webauthn_credentials" :=
             {| Sql.tbl_columns := [];
                Sql.tbl_rows :=
                  [ credential_row 1 "john" "Primary" "AQIDBA==" "a" 3 true;
                    credential_row 2 "john" "Backup" "AQIDBA==" "b" 0 true ];
                Sql.tbl_nextval := 3 |}]> ∅;
       Sql.indexes := ∅ |}
  = None.
Proof. vm_compute. reflexivity. Qed.
